(** * Exercises 1a-1d: HTTP echo server, bikeshare feed and table builders

    A shallow embedding of the Python sources

    - [1a/ej1a1.py]  ([get_user_ip]),
    - [1a/ej1a3.py]  ([MyHTTPRequestHandler.do_GET], [_get_client_ip]),
    - [1b/ej1b3.py]  (the 404 branch of [do_GET]),
    - [1c/ej1c2.py]  ([get_station_info], [get_station_coordinates],
                      [create_stations_dataframe]),
    - [1d/ej1d1.py]  ([crear_dataframe_estaciones]),

    together with the parts of the Python run time they call: [str]
    methods, [json.dumps] / [json.loads], the response writer of
    [http.server] and the [pandas.DataFrame] constructor. *)

From Stdlib Require Import List String Ascii ZArith NArith Lia Bool.
From Stdlib Require Import DecimalString SpecFloat.
Import ListNotations.

Set Implicit Arguments.
Set Warnings "-register-all".

(* ================================================================== *)
(** * Python values and built-ins                                      *)
(* ================================================================== *)

Module Py.

(** A [str] is a sequence of Unicode code points. *)
Definition pystr := list N.

Definition ch (a : ascii) : N := N_of_ascii a.

(** The [str] denoted by a source literal (ASCII literals only). *)
Definition lit (s : string) : pystr := map ch (list_ascii_of_string s).

(** The octets of a request, as [http.server] decodes them
    ([iso-8859-1]: octet [n] becomes code point [n]). *)
Definition latin1 (s : string) : pystr := map ch (list_ascii_of_string s).

Definition str_eqb (a b : pystr) : bool :=
  if list_eq_dec N.eq_dec a b then true else false.

(** Exceptions that the modelled code can meet. [is_Exception] tells
    the classes below [Exception] from those that derive from
    [BaseException] only. *)
Inductive exn : Type :=
| AttributeError | TypeError | IndexError | KeyError
| UnicodeEncodeError | UnicodeDecodeError
| JSONDecodeError | RecursionError
| RequestException        (* requests.exceptions.* : ConnectionError, Timeout, ... *)
| KeyboardInterrupt | SystemExit
| NotModelled.            (* no Python class: a floating-point literal or
                             [repr], where this model stops *)

Definition is_Exception (e : exn) : bool :=
  match e with
  | KeyboardInterrupt | SystemExit => false
  | _ => true
  end.

Inductive result (A : Type) : Type :=
| Ok (a : A)
| Raise (e : exn).
Arguments Raise {A} e.

Definition bind {A B} (r : result A) (k : A -> result B) : result B :=
  match r with
  | Ok a => k a
  | Raise e => Raise e
  end.

(** [Py_UNICODE_ISSPACE]: the code points [str.strip()] removes. *)
Definition isspace (c : N) : bool :=
  ((9 <=? c) && (c <=? 13) || (28 <=? c) && (c <=? 32)
   || (c =? 133) || (c =? 160) || (c =? 5760)
   || (8192 <=? c) && (c <=? 8202)
   || (c =? 8232) || (c =? 8233) || (c =? 8239) || (c =? 8287)
   || (c =? 12288))%N.

Fixpoint lstrip (s : pystr) : pystr :=
  match s with
  | [] => []
  | c :: t => if isspace c then lstrip t else s
  end.

Definition rstrip (s : pystr) : pystr := rev (lstrip (rev s)).

(** [s.strip()] *)
Definition strip (s : pystr) : pystr := rstrip (lstrip s).

(** [s.split(sep)] for a one-character separator: never empty. *)
Fixpoint split (sep : N) (s : pystr) : list pystr :=
  match s with
  | [] => [[]]
  | c :: t =>
      if (c =? sep)%N then [] :: split sep t
      else match split sep t with
           | [] => [[c]]
           | w :: ws => (c :: w) :: ws
           end
  end.

(** [l[i]] for [i >= 0]. *)
Definition index {A} (l : list A) (i : nat) : result A :=
  match nth_error l i with
  | Some a => Ok a
  | None => Raise IndexError
  end.

(** [c.lower()] on one code point; exact below 256, which is all a
    header name decoded from [iso-8859-1] can hold. *)
Definition lower_cp (c : N) : N :=
  (if (65 <=? c) && (c <=? 90) then c + 32
   else if (192 <=? c) && (c <=? 222) && negb (c =? 215) then c + 32
   else c)%N.

Definition lower (s : pystr) : pystr := map lower_cp s.

(** [str(n)] for an [int]. *)
Definition str_of_int (z : Z) : pystr :=
  lit (NilZero.string_of_int (Z.to_int z)).

(** [bool(s)] for a [str]. *)
Definition truthy_str (s : pystr) : bool :=
  match s with [] => false | _ => true end.

Definition byte_of_N (n : N) : Byte.byte :=
  match Byte.of_N n with Some b => b | None => Byte.x00 end.

(** [s.encode()], UTF-8 with the [strict] error handler: surrogates and
    values that are not code points raise. *)
Definition utf8_cp (c : N) : result (list Byte.byte) :=
  (if c <? 128 then Ok [byte_of_N c]
   else if c <? 2048 then
     Ok [byte_of_N (192 + c / 64); byte_of_N (128 + c mod 64)]
   else if c <? 65536 then
     if (55296 <=? c) && (c <=? 57343) then Raise UnicodeEncodeError
     else Ok [byte_of_N (224 + c / 4096);
              byte_of_N (128 + (c / 64) mod 64);
              byte_of_N (128 + c mod 64)]
   else if c <? 1114112 then
     Ok [byte_of_N (240 + c / 262144);
         byte_of_N (128 + (c / 4096) mod 64);
         byte_of_N (128 + (c / 64) mod 64);
         byte_of_N (128 + c mod 64)]
   else Raise UnicodeEncodeError)%N.

Fixpoint encode (s : pystr) : result (list Byte.byte) :=
  match s with
  | [] => Ok []
  | c :: t =>
      bind (utf8_cp c) (fun bs =>
      bind (encode t) (fun r => Ok (bs ++ r)))
  end.

Definition is_cont (b : Byte.byte) : bool :=
  let n := Byte.to_N b in ((128 <=? n) && (n <=? 191))%N.

Definition low6 (b : Byte.byte) : N := (Byte.to_N b mod 64)%N.

(** [b.decode()], UTF-8 with the [strict] error handler: overlong
    forms, surrogates and values above [0x10FFFF] raise. *)
Fixpoint decode (b : list Byte.byte) : result pystr :=
  match b with
  | [] => Ok []
  | b0 :: t =>
      let n0 := Byte.to_N b0 in
      (if n0 <? 128 then bind (decode t) (fun r => Ok (n0 :: r))
       else if (194 <=? n0) && (n0 <=? 223) then
         match t with
         | b1 :: t1 =>
             if is_cont b1
             then bind (decode t1) (fun r =>
                    Ok (((n0 mod 32) * 64 + low6 b1) :: r))
             else Raise UnicodeDecodeError
         | _ => Raise UnicodeDecodeError
         end
       else if (224 <=? n0) && (n0 <=? 239) then
         match t with
         | b1 :: b2 :: t2 =>
             let c := (n0 mod 16) * 4096 + low6 b1 * 64 + low6 b2 in
             if is_cont b1 && is_cont b2 && (2048 <=? c)
                && negb ((55296 <=? c) && (c <=? 57343))
             then bind (decode t2) (fun r => Ok (c :: r))
             else Raise UnicodeDecodeError
         | _ => Raise UnicodeDecodeError
         end
       else if (240 <=? n0) && (n0 <=? 244) then
         match t with
         | b1 :: b2 :: b3 :: t3 =>
             let c := (n0 mod 8) * 262144 + low6 b1 * 4096
                      + low6 b2 * 64 + low6 b3 in
             if is_cont b1 && is_cont b2 && is_cont b3
                && (65536 <=? c) && (c <? 1114112)
             then bind (decode t3) (fun r => Ok (c :: r))
             else Raise UnicodeDecodeError
         | _ => Raise UnicodeDecodeError
         end
       else Raise UnicodeDecodeError)%N
  end.

(** Python objects: what a parsed JSON document, a [dict] literal or a
    returned tuple is made of. A [dict] keeps its keys (all [str] in
    these programs) in insertion order. *)
Inductive pyval : Type :=
| PNone
| PBool (b : bool)
| PInt (z : Z)
| PFloat (f : spec_float)
| PStr (s : pystr)
| PList (l : list pyval)
| PTuple (l : list pyval)
| PDict (d : list (pystr * pyval)).

Definition dict := list (pystr * pyval).

(** [d.get(k)] without default: [None] inside Python is [Some PNone]
    or an absent key; the two are told apart here and merged by
    [dict_get]. *)
Fixpoint dict_lookup (d : dict) (k : pystr) : option pyval :=
  match d with
  | [] => None
  | (k', v) :: t => if str_eqb k' k then Some v else dict_lookup t k
  end.

(** [d.get(k, default)] *)
Definition dict_get_default (d : dict) (k : pystr) (default : pyval) : pyval :=
  match dict_lookup d k with
  | Some v => v
  | None => default
  end.

(** [d.get(k)] *)
Definition dict_get (d : dict) (k : pystr) : pyval :=
  dict_get_default d k PNone.

(** [d[k] = v]: an existing key keeps its place. *)
Fixpoint dict_set (d : dict) (k : pystr) (v : pyval) : dict :=
  match d with
  | [] => [(k, v)]
  | (k', v') :: t =>
      if str_eqb k' k then (k', v) :: t else (k', v') :: dict_set t k v
  end.

(** [dict(pairs)] and the display [{k1: v1, ...}]. *)
Definition dict_of_pairs (pairs : list (pystr * pyval)) : dict :=
  fold_left (fun d kv => dict_set d (fst kv) (snd kv)) pairs [].

(** [bool(v)] *)
Definition truthy (v : pyval) : bool :=
  match v with
  | PNone => false
  | PBool b => b
  | PInt z => negb (z =? 0)%Z
  | PFloat (S754_zero _) => false
  | PFloat _ => true
  | PStr s => truthy_str s
  | PList l | PTuple l => match l with [] => false | _ => true end
  | PDict d => match d with [] => false | _ => true end
  end.

End Py.

Import Py.

(* ================================================================== *)
(** * The [json] module                                                *)
(* ================================================================== *)

Module Json.

Definition hexdigit (d : N) : N := (if d <? 10 then 48 + d else 87 + d)%N.

(** ['{0:04x}'.format(n)] for [n < 0x10000]. *)
Definition hex4 (n : N) : pystr :=
  [hexdigit ((n / 4096) mod 16); hexdigit ((n / 256) mod 16);
   hexdigit ((n / 16) mod 16); hexdigit (n mod 16)]%N.

Definition u_escape (n : N) : pystr := ch "\" :: ch "u" :: hex4 n.

(** [replace] of [py_encode_basestring_ascii]: what one code point
    becomes. [ESCAPE_ASCII] matches a backslash, a double quote and
    everything outside [' '..'~']. *)
Definition escape_cp (c : N) : pystr :=
  (if (32 <=? c) && (c <=? 126) && negb (c =? 92) && negb (c =? 34)
   then [c]
   else if c =? 92 then lit "\\"
   else if c =? 34 then [ch "\"; 34]
   else if c =? 8 then lit "\b"
   else if c =? 12 then lit "\f"
   else if c =? 10 then lit "\n"
   else if c =? 13 then lit "\r"
   else if c =? 9 then lit "\t"
   else if c <? 65536 then u_escape c
   else
     let n := c - 65536 in
     let s1 := N.lor 55296 (N.land (N.shiftr n 10) 1023) in
     let s2 := N.lor 56320 (N.land n 1023) in
     u_escape s1 ++ u_escape s2)%N.

Definition escape (s : pystr) : pystr := flat_map escape_cp s.

(** [py_encode_basestring_ascii(s)] *)
Definition encode_basestring_ascii (s : pystr) : pystr :=
  34%N :: escape s ++ [34%N].

(** [sep.join(parts)] *)
Fixpoint join (sep : pystr) (parts : list pystr) : pystr :=
  match parts with
  | [] => []
  | [x] => x
  | x :: t => x ++ sep ++ join sep t
  end.

(** [json.dumps(v)] with the default options ([ensure_ascii], the
    separators [", "] and [": "], no indentation). *)
Fixpoint dumps (v : pyval) : result pystr :=
  let fix items (l : list pyval) : result (list pystr) :=
    match l with
    | [] => Ok []
    | x :: t =>
        bind (dumps x) (fun sx =>
        bind (items t) (fun st => Ok (sx :: st)))
    end in
  let fix members (d : list (pystr * pyval)) : result (list pystr) :=
    match d with
    | [] => Ok []
    | (k, x) :: t =>
        bind (dumps x) (fun sx =>
        bind (members t) (fun st =>
          Ok ((encode_basestring_ascii k ++ lit ": " ++ sx) :: st)))
    end in
  match v with
  | PNone => Ok (lit "null")
  | PBool true => Ok (lit "true")
  | PBool false => Ok (lit "false")
  | PInt z => Ok (str_of_int z)
  | PFloat _ => Raise NotModelled
  | PStr s => Ok (encode_basestring_ascii s)
  | PList l | PTuple l =>
      bind (items l) (fun parts =>
        Ok (lit "[" ++ join (lit ", ") parts ++ lit "]"))
  | PDict d =>
      bind (members d) (fun parts =>
        Ok (lit "{" ++ join (lit ", ") parts ++ lit "}"))
  end.

(** ** Decoding *)

Definition unhex (c : N) : option N :=
  (if (48 <=? c) && (c <=? 57) then Some (c - 48)
   else if (65 <=? c) && (c <=? 70) then Some (c - 55)
   else if (97 <=? c) && (c <=? 102) then Some (c - 87)
   else None)%N.

(** [_decode_uXXXX]: [int(esc, 16)] of four hexadecimal digits. *)
Definition decode_hex4 (a b c d : N) : option N :=
  match unhex a, unhex b, unhex c, unhex d with
  | Some x, Some y, Some z, Some w =>
      Some (((x * 16 + y) * 16 + z) * 16 + w)%N
  | _, _, _, _ => None
  end.

(** The [BACKSLASH] table of [json.decoder]. *)
Definition backslash (e : N) : option N :=
  (if e =? 34 then Some 34            (* quote *)
   else if e =? 92 then Some 92       (* backslash *)
   else if e =? 47 then Some 47       (* slash *)
   else if e =? 98 then Some 8        (* backspace *)
   else if e =? 102 then Some 12      (* form feed *)
   else if e =? 110 then Some 10      (* line feed *)
   else if e =? 114 then Some 13      (* carriage return *)
   else if e =? 116 then Some 9       (* tab *)
   else None)%N.

Definition cons_char (c : N) (r : result (pystr * pystr))
  : result (pystr * pystr) :=
  bind r (fun p => Ok (c :: fst p, snd p)).

Definition starts_bs_u (s : pystr) : bool :=
  match s with
  | b :: u :: _ => ((b =? 92) && (u =? 117))%N
  | _ => false
  end.

(** [py_scanstring(s, end)] in strict mode, entered after the opening
    quote: the decoded string and the text after the closing quote. *)
Fixpoint scanstring (s : pystr) : result (pystr * pystr) :=
  match s with
  | [] => Raise JSONDecodeError               (* unterminated *)
  | c :: t =>
      if (c =? 34)%N then Ok ([], t)
      else if (c =? 92)%N then
        match t with
        | [] => Raise JSONDecodeError
        | e :: t1 =>
            if (e =? 117)%N then
              match t1 with
              | a :: b :: c1 :: d :: t2 =>
                  match decode_hex4 a b c1 d with
                  | None => Raise JSONDecodeError
                  | Some uni =>
                      if ((55296 <=? uni) && (uni <=? 56319))%N
                         && starts_bs_u t2
                      then
                        match t2 with
                        | _ :: _ :: a' :: b' :: c' :: d' :: t3 =>
                            match decode_hex4 a' b' c' d' with
                            | None => Raise JSONDecodeError
                            | Some uni2 =>
                                if ((56320 <=? uni2) && (uni2 <=? 57343))%N
                                then cons_char
                                       (65536 + N.lor (N.shiftl (uni - 55296) 10)
                                                      (uni2 - 56320))%N
                                       (scanstring t3)
                                else cons_char uni (scanstring t2)
                            end
                        | _ => Raise JSONDecodeError
                        end
                      else cons_char uni (scanstring t2)
                  end
              | _ => Raise JSONDecodeError
              end
            else
              match backslash e with
              | Some c' => cons_char c' (scanstring t1)
              | None => Raise JSONDecodeError
              end
        end
      else if (c <? 32)%N then Raise JSONDecodeError   (* control character *)
      else cons_char c (scanstring t)
  end.

Definition is_ws (c : N) : bool :=
  ((c =? 32) || (c =? 9) || (c =? 10) || (c =? 13))%N.

(** [WHITESPACE.match(s, idx).end()] *)
Fixpoint skip_ws (s : pystr) : pystr :=
  match s with
  | [] => []
  | c :: t => if is_ws c then skip_ws t else s
  end.

Definition is_digit (c : N) : bool := ((48 <=? c) && (c <=? 57))%N.

Fixpoint span_digits (s : pystr) : pystr * pystr :=
  match s with
  | [] => ([], [])
  | c :: t =>
      if is_digit c
      then let (ds, r) := span_digits t in (c :: ds, r)
      else ([], s)
  end.

Definition int_of_digits (ds : pystr) : Z :=
  fold_left (fun a d => (10 * a + Z.of_N (d - 48))%Z) ds 0%Z.

(** The integer group of [NUMBER_RE]: an optional minus sign, then a
    lone zero or a digit 1-9 followed by any digits. *)
Definition match_integer (s : pystr) : option (Z * pystr) :=
  let '(neg, s1) :=
    match s with
    | c :: t => if (c =? 45)%N then (true, t) else (false, s)
    | [] => (false, s)
    end in
  match s1 with
  | [] => None
  | c :: t =>
      if (c =? 48)%N then Some (0%Z, t)
      else if is_digit c then
        let (ds, r) := span_digits t in
        let n := int_of_digits (c :: ds) in
        Some (if neg then (- n)%Z else n, r)
      else None
  end.

(** The fraction group (a dot and digits) and the exponent group
    (e or E, an optional sign, digits) of [NUMBER_RE]: is one of them
    present? *)
Definition has_frac_or_exp (s : pystr) : bool :=
  match s with
  | c :: d :: t =>
      ((c =? 46) && is_digit d)%N
      || (((c =? 101) || (c =? 69))%N
          && (is_digit d
              || (((d =? 43) || (d =? 45))%N
                  && match t with d2 :: _ => is_digit d2 | [] => false end)))
  | _ => false
  end.

Fixpoint strip_prefix (p s : pystr) : option pystr :=
  match p, s with
  | [], _ => Some s
  | a :: p', b :: s' => if (a =? b)%N then strip_prefix p' s' else None
  | _ :: _, [] => None
  end.

Section Scanner.

(** [scan_once] at the enclosing nesting level. *)
Variable scan : pystr -> result (pyval * pystr).

(** The [while True] loop of [JSONObject], entered after the opening
    quote of a key. *)
Fixpoint object_loop (k : nat) (pairs : list (pystr * pyval)) (s : pystr)
  : result (pyval * pystr) :=
  match k with
  | O => Raise RecursionError
  | S k' =>
      bind (scanstring s) (fun kr =>
      match skip_ws (snd kr) with
      | c :: r1 =>
          if (c =? 58)%N then
            bind (scan (skip_ws r1)) (fun vr =>
            let pairs' := pairs ++ [(fst kr, fst vr)] in
            match skip_ws (snd vr) with
            | c2 :: r3 =>
                if (c2 =? 125)%N then Ok (PDict (dict_of_pairs pairs'), r3)
                else if (c2 =? 44)%N then
                  match skip_ws r3 with
                  | q :: r4 =>
                      if (q =? 34)%N then object_loop k' pairs' r4
                      else Raise JSONDecodeError
                  | [] => Raise JSONDecodeError
                  end
                else Raise JSONDecodeError
            | [] => Raise JSONDecodeError
            end)
          else Raise JSONDecodeError
      | [] => Raise JSONDecodeError
      end)
  end.

(** [JSONObject], entered after the opening brace. *)
Definition JSONObject (s : pystr) : result (pyval * pystr) :=
  match skip_ws s with
  | c :: t =>
      if (c =? 125)%N then Ok (PDict [], t)
      else if (c =? 34)%N then object_loop (S (List.length t)) [] t
      else Raise JSONDecodeError
  | [] => Raise JSONDecodeError
  end.

(** The [while True] loop of [JSONArray]. *)
Fixpoint array_loop (k : nat) (values : list pyval) (s : pystr)
  : result (pyval * pystr) :=
  match k with
  | O => Raise RecursionError
  | S k' =>
      bind (scan s) (fun vr =>
      let values' := values ++ [fst vr] in
      match skip_ws (snd vr) with
      | c :: r1 =>
          if (c =? 93)%N then Ok (PList values', r1)
          else if (c =? 44)%N then array_loop k' values' (skip_ws r1)
          else Raise JSONDecodeError
      | [] => Raise JSONDecodeError
      end)
  end.

(** [JSONArray], entered after the opening bracket. *)
Definition JSONArray (s : pystr) : result (pyval * pystr) :=
  match skip_ws s with
  | c :: t =>
      if (c =? 93)%N then Ok (PList [], t)
      else array_loop (S (List.length t)) [] (c :: t)
  | [] => Raise JSONDecodeError
  end.

End Scanner.

(** [_scan_once] of [py_make_scanner]. [fuel] bounds the nesting depth
    that is still allowed; the length of the text is always enough. *)
Fixpoint scan_once (fuel : nat) (s : pystr) : result (pyval * pystr) :=
  match fuel with
  | O => Raise RecursionError
  | S n =>
      match s with
      | [] => Raise JSONDecodeError              (* StopIteration *)
      | c :: t =>
          if (c =? 34)%N then
            bind (scanstring t) (fun p => Ok (PStr (fst p), snd p))
          else if (c =? 123)%N then JSONObject (scan_once n) t
          else if (c =? 91)%N then JSONArray (scan_once n) t
          else
            match strip_prefix (lit "null") s,
                  strip_prefix (lit "true") s,
                  strip_prefix (lit "false") s with
            | Some r, _, _ => Ok (PNone, r)
            | _, Some r, _ => Ok (PBool true, r)
            | _, _, Some r => Ok (PBool false, r)
            | None, None, None =>
                match match_integer s with
                | Some (z, r) =>
                    if has_frac_or_exp r then Raise NotModelled
                    else Ok (PInt z, r)
                | None =>
                    match strip_prefix (lit "NaN") s,
                          strip_prefix (lit "Infinity") s,
                          strip_prefix (lit "-Infinity") s with
                    | None, None, None => Raise JSONDecodeError
                    | _, _, _ => Raise NotModelled
                    end
                end
            end
      end
  end.

(** [json.loads(s)] for a [str]. *)
Definition loads (s : pystr) : result pyval :=
  match s with
  | 65279%N :: _ => Raise JSONDecodeError          (* UTF-8 BOM *)
  | _ =>
      let s0 := skip_ws s in
      bind (scan_once (S (List.length s0)) s0) (fun vr =>
      match skip_ws (snd vr) with
      | [] => Ok (fst vr)
      | _ :: _ => Raise JSONDecodeError            (* extra data *)
      end)
  end.

End Json.

(* ================================================================== *)
(** * [http.server]: the request handler and its response writer       *)
(* ================================================================== *)

Module HttpServer.

(** What [BaseHTTPRequestHandler] has parsed when it calls [do_GET]:
    [self.path], [self.headers] (in arrival order),
    [self.client_address], the [(host, port)] pair of the socket, and
    [self.request_version], which is "HTTP/0.9" for a request line
    without a version; and the two strings it stamps on a response,
    [self.version_string()] and [self.date_time_string()]. *)
Record handler : Type := {
  path : pystr;
  headers : list (pystr * pystr);
  client_address : pystr * Z;
  request_version : pystr;
  version_string : pystr;
  date_time_string : pystr
}.

(** [self.headers.get(name)]: the first header whose name equals
    [name] up to case, else [None]. *)
Fixpoint headers_get (hs : list (pystr * pystr)) (name : pystr)
  : option pystr :=
  match hs with
  | [] => None
  | (k, v) :: t =>
      if str_eqb (lower k) (lower name) then Some v else headers_get t name
  end.

(** What has been written for the current request. *)
Record wire : Type := {
  status : option Z;
  sent_headers : list (pystr * pystr);
  headers_ended : bool;
  wfile : list Byte.byte
}.

Definition idle : wire :=
  {| status := None; sent_headers := []; headers_ended := false; wfile := [] |}.

(** Handler code: it writes to the wire and may raise. *)
Definition M (A : Type) : Type := wire -> result (A * wire).

Definition ret {A} (a : A) : M A := fun w => Ok (a, w).

Definition mbind {A B} (c : M A) (k : A -> M B) : M B :=
  fun w => match c w with
           | Ok (a, w') => k a w'
           | Raise e => Raise e
           end.

Definition lift {A} (r : result A) : M A :=
  fun w => match r with
           | Ok a => Ok (a, w)
           | Raise e => Raise e
           end.

Declare Scope handler_scope.
Delimit Scope handler_scope with handler.
Notation "x <- c ;; k" := (mbind c (fun x => k))
  (at level 61, c at next level, right associativity) : handler_scope.
Notation "c ;; k" := (mbind c (fun _ => k))
  (at level 61, right associativity) : handler_scope.

(** [self.request_version != 'HTTP/0.9'], the test that guards every
    write of a status line or header. *)
Definition with_headers (self : handler) : bool :=
  negb (str_eqb (request_version self) (lit "HTTP/0.9")).

(** [self.send_response_only(code)]: the status line, unless the
    request is HTTP/0.9. *)
Definition send_response_only (self : handler) (code : Z) : M unit :=
  fun w =>
    if with_headers self
    then Ok (tt, {| status := Some code;
                    sent_headers := sent_headers w;
                    headers_ended := headers_ended w;
                    wfile := wfile w |})
    else Ok (tt, w).

(** [self.send_header(keyword, value)]: one header, unless the request
    is HTTP/0.9. The latin-1 encoding of the header line is left out:
    the headers sent here are ASCII literals and the ASCII text of
    [version_string()] and [date_time_string()], and no Connection
    header is sent. *)
Definition send_header (self : handler) (keyword value : pystr) : M unit :=
  fun w =>
    if with_headers self
    then Ok (tt, {| status := status w;
                    sent_headers := sent_headers w ++ [(keyword, value)];
                    headers_ended := headers_ended w;
                    wfile := wfile w |})
    else Ok (tt, w).

(** [self.send_response(code)]: the status line, then the [Server]
    and [Date] headers (the log line on [stderr] is left out). *)
Definition send_response (self : handler) (code : Z) : M unit :=
  (mbind (send_response_only self code) (fun _ =>
   mbind (send_header self (lit "Server") (version_string self)) (fun _ =>
   send_header self (lit "Date") (date_time_string self)))).

(** [self.end_headers()]: closes the header block, unless the request
    is HTTP/0.9. *)
Definition end_headers (self : handler) : M unit :=
  fun w =>
    if with_headers self
    then Ok (tt, {| status := status w;
                    sent_headers := sent_headers w;
                    headers_ended := true;
                    wfile := wfile w |})
    else Ok (tt, w).

(** [self.wfile.write(data)] *)
Definition wfile_write (data : list Byte.byte) : M unit :=
  fun w => Ok (tt, {| status := status w;
                      sent_headers := sent_headers w;
                      headers_ended := headers_ended w;
                      wfile := wfile w ++ data |}).

(** The response a handler method leaves on an idle connection. *)
Definition response_of (method : M unit) : result wire :=
  match method idle with
  | Ok (_, w) => Ok w
  | Raise e => Raise e
  end.


(** A request as it comes off the socket: octets. [http.server]
    decodes the request line and the header block as [iso-8859-1]
    before the handler sees them, and the peer's host is the text
    form of its address. [version] is the third word of the request
    line, "HTTP/0.9" when the line has only two. *)
Record request : Type := {
  target : string;
  version : string;
  header_lines : list (string * string);
  peer : string * Z;
  server_banner : string;
  date_stamp : string
}.

Definition handler_of (r : request) : handler :=
  {| path := latin1 (target r);
     headers := map (fun kv => (latin1 (fst kv), latin1 (snd kv)))
                    (header_lines r);
     client_address := (latin1 (fst (peer r)), snd (peer r));
     request_version := latin1 (version r);
     version_string := latin1 (server_banner r);
     date_time_string := latin1 (date_stamp r) |}.

End HttpServer.

Import HttpServer.

(* ================================================================== *)
(** * [1a/ej1a3.py]                                                    *)
(* ================================================================== *)

Module Ej1a3.

Local Open Scope handler_scope.

(** [MyHTTPRequestHandler._get_client_ip] *)
Definition _get_client_ip (self : handler) : result pystr :=
  let x_forwarded_for := headers_get (headers self) (lit "X-Forwarded-For") in
  match x_forwarded_for with
  | Some ((_ :: _) as xff) =>
      bind (index (split (ch ",") xff) 0) (fun first => Ok (strip first))
  | _ =>
      let x_real_ip := headers_get (headers self) (lit "X-Real-IP") in
      match x_real_ip with
      | Some ((_ :: _) as xri) => Ok xri
      | _ => Ok (fst (client_address self))
      end
  end.

(** [MyHTTPRequestHandler.do_GET] *)
Definition do_GET (self : handler) : M unit :=
  if str_eqb (path self) (lit "/ip") then
    client_ip <- lift (_get_client_ip self) ;;
    response_data <-
      lift (Json.dumps (PDict (dict_of_pairs [(lit "ip", PStr client_ip)]))) ;;
    send_response self 200 ;;
    send_header self (lit "Content-Type") (lit "application/json") ;;
    end_headers self ;;
    body <- lift (encode response_data) ;;
    wfile_write body
  else
    send_response self 404 ;;
    send_header self (lit "Content-Type") (lit "application/json") ;;
    end_headers self ;;
    text <-
      lift (Json.dumps
              (PDict (dict_of_pairs [(lit "error", PStr (lit "Not Found"))]))) ;;
    body <- lift (encode text) ;;
    wfile_write body.

End Ej1a3.

(* ================================================================== *)
(** * [1b/ej1b3.py]                                                    *)
(* ================================================================== *)

Module Ej1b3.

Local Open Scope handler_scope.

(** The [else] branch of [do_GET] (lines 22-29). *)
Definition not_found (self : handler) : M unit :=
  send_response self 404 ;;
  send_header self (lit "Content-Type") (lit "application/json") ;;
  end_headers self ;;
  let error_info :=
    PDict (dict_of_pairs
             [(lit "code", PInt 404);
              (lit "message",
               PStr (lit "Recurso " ++ path self ++ lit " no encontrado"))]) in
  text <- lift (Json.dumps error_info) ;;
  body <- lift (encode text) ;;
  wfile_write body.

(** Modelled from the spec: the first branch of the [if] is not in the
    part of [ej1b3.py] at hand. The spec (4.2) answers a path that
    "equals exactly /ip" with status 200, Content-Type application/json
    and the JSON object with the single key "ip", resolved as in 4.1;
    that is the first branch of [Ej1a3.do_GET], written out again. *)
Definition ip_route (self : handler) : M unit :=
  client_ip <- lift (Ej1a3._get_client_ip self) ;;
  response_data <-
    lift (Json.dumps (PDict (dict_of_pairs [(lit "ip", PStr client_ip)]))) ;;
  send_response self 200 ;;
  send_header self (lit "Content-Type") (lit "application/json") ;;
  end_headers self ;;
  body <- lift (encode response_data) ;;
  wfile_write body.

(** Modelled from the spec: the test of the [if] is not in the part of
    [ej1b3.py] at hand either. The spec (3, 4.2) compares the path
    verbatim with "/ip", as line 39 of [ej1a3.py] does; the [else]
    branch is [not_found], from the source. *)
Definition do_GET (self : handler) : M unit :=
  if str_eqb (path self) (lit "/ip") then ip_route self else not_found self.

End Ej1b3.

(* ================================================================== *)
(** * [1a/ej1a1.py]                                                    *)
(* ================================================================== *)

Module Ej1a1.

(** The two attributes of a [requests.Response] the function reads. *)
Record Response : Type := { status_code : Z; text : pystr }.

(** [try: body except Exception: handler]. Classes that derive from
    [BaseException] only pass through. *)
Definition try_except_Exception {A} (body : result A) (handler : result A)
  : result A :=
  match body with
  | Ok a => Ok a
  | Raise e => if is_Exception e then handler else Raise e
  end.

Section WithNetwork.

(** [requests.get]: the network answers or the call raises. *)
Variable requests_get : pystr -> result Response.

(** [get_user_ip()]; Python's [None] is [None]. *)
Definition get_user_ip : result (option pystr) :=
  try_except_Exception
    (bind (requests_get (lit "https://api.ipify.org")) (fun response =>
       if (status_code response =? 200)%Z
       then Ok (Some (text response))
       else Ok None))
    (Ok None).

End WithNetwork.

End Ej1a1.

(* ================================================================== *)
(** * [pandas.DataFrame], as far as the table builders use it          *)
(* ================================================================== *)

Module Pandas.

(** What a cell of a table is made from: an object handed to the
    constructor, or nothing, where the record lacks the column's key.
    The value that pandas stores is the conversion of it to the dtype
    it infers for the column, which is not modelled: in a numeric
    column a [None] or a gap is stored as NaN and the ints beside it as
    floats. *)
Inductive cell : Type :=
| From (obj : pyval)
| Gap.

(** A table: its column labels and its rows, one cell per column, each
    cell given by what it is made from. *)
Record DataFrame : Type := {
  columns : list pystr;
  rows : list (list cell)
}.

Definition mem (k : pystr) (ks : list pystr) : bool :=
  existsb (str_eqb k) ks.

(** The labels of a list of records: the keys of all of them, each in
    the place of its first appearance. *)
Definition union_keys (data : list dict) : list pystr :=
  fold_left
    (fun acc d =>
       fold_left (fun acc' kv => if mem (fst kv) acc' then acc'
                                 else acc' ++ [fst kv]) d acc)
    data [].

(** [pd.DataFrame(data)] for a list of [dict] records: one row per
    record, in list order; a key that a record lacks leaves a gap. *)
Definition DataFrame_of_records (data : list dict) : DataFrame :=
  let cols := union_keys data in
  {| columns := cols;
     rows := map (fun d =>
                    map (fun c => match dict_lookup d c with
                                  | Some v => From v
                                  | None => Gap
                                  end) cols) data |}.

(** [pd.DataFrame(columns=cols)] *)
Definition DataFrame_of_columns (cols : list pystr) : DataFrame :=
  {| columns := cols; rows := [] |}.

End Pandas.

Import Pandas.

(* ================================================================== *)
(** * [1c/ej1c2.py]                                                    *)
(* ================================================================== *)

Module Ej1c2.

(** [obj.get(key, default)]: only a [dict] has the method. *)
Definition py_get_default (obj : pyval) (key : pystr) (default : pyval)
  : result pyval :=
  match obj with
  | PDict d => Ok (dict_get_default d key default)
  | _ => Raise AttributeError
  end.

(** [obj.get(key)] *)
Definition py_get (obj : pyval) (key : pystr) : result pyval :=
  py_get_default obj key PNone.

(** [iter(obj)], run to the end. *)
Definition py_iter (obj : pyval) : result (list pyval) :=
  match obj with
  | PList l | PTuple l => Ok l
  | PStr s => Ok (map (fun c => PStr [c]) s)
  | PDict d => Ok (map (fun kv => PStr (fst kv)) d)
  | PNone | PBool _ | PInt _ | PFloat _ => Raise TypeError
  end.

Definition is_None (v : pyval) : bool :=
  match v with PNone => true | _ => false end.

(** [v == s] for a [str] [s]: no other kind of object equals one. *)
Definition eq_str (v : pyval) (s : pystr) : bool :=
  match v with PStr s' => str_eqb s' s | _ => false end.

(** The [for] loop of [get_station_info], with its early [return]. *)
Fixpoint get_station_info_loop (stations : list pyval) (station_id : pystr)
  : result pyval :=
  match stations with
  | [] => Ok PNone
  | station :: rest =>
      bind (py_get station (lit "station_id")) (fun sid =>
      if eq_str sid station_id then Ok station
      else get_station_info_loop rest station_id)
  end.

(** [get_station_info(stations_data, station_id)] *)
Definition get_station_info (stations_data : pyval) (station_id : pystr)
  : result pyval :=
  if is_None stations_data then Ok PNone
  else
    bind (py_get_default stations_data (lit "stations") (PList []))
         (fun stations =>
    if negb (truthy stations) then Ok PNone
    else
      bind (py_iter stations) (fun items =>
      get_station_info_loop items station_id)).

(** [get_station_coordinates(station_info)] *)
Definition get_station_coordinates (station_info : pyval) : result pyval :=
  if is_None station_info then Ok PNone
  else
    bind (py_get station_info (lit "lat")) (fun lat =>
    bind (py_get station_info (lit "lon")) (fun lon =>
    if is_None lat || is_None lon then Ok PNone
    else Ok (PTuple [lat; lon]))).

(** The [for] loop of [create_stations_dataframe]. *)
Fixpoint data_list_of (stations : list pyval) : result (list dict) :=
  match stations with
  | [] => Ok []
  | station :: rest =>
      bind (py_get station (lit "station_id")) (fun sid =>
      bind (py_get station (lit "lat")) (fun lat =>
      bind (py_get station (lit "lon")) (fun lon =>
      bind (py_get station (lit "name")) (fun name =>
      bind (data_list_of rest) (fun tl =>
        Ok (dict_of_pairs [(lit "station_id", sid);
                           (lit "latitude", lat);
                           (lit "longitude", lon);
                           (lit "name", name)] :: tl))))))
  end.

(** [create_stations_dataframe(stations_data)] *)
Definition create_stations_dataframe (stations_data : pyval)
  : result (option DataFrame) :=
  if is_None stations_data then Ok None
  else
    bind (py_get stations_data (lit "stations")) (fun stations =>
    if is_None stations then Ok None
    else
      bind (py_iter stations) (fun items =>
      bind (data_list_of items) (fun data_list =>
      Ok (Some (DataFrame_of_records data_list))))).

End Ej1c2.

(* ================================================================== *)
(** * [1d/ej1d1.py]                                                    *)
(* ================================================================== *)

Module Ej1d1.

(** A [pybikes] station object: the five attributes read here. *)
Record Station : Type := {
  name : pyval;
  latitude : pyval;
  longitude : pyval;
  bikes : pyval;
  free : pyval
}.

(** [crear_dataframe_estaciones(estaciones)]; the argument is a list
    or [None]. *)
Definition crear_dataframe_estaciones (estaciones : option (list Station))
  : DataFrame :=
  match estaciones with
  | None | Some [] =>
      DataFrame_of_columns
        [lit "name"; lit "latitude"; lit "longitude"; lit "bikes"; lit "free"]
  | Some l =>
      let data :=
        map (fun estacion =>
               dict_of_pairs [(lit "name", name estacion);
                              (lit "latitude", latitude estacion);
                              (lit "longitude", longitude estacion);
                              (lit "bikes", bikes estacion);
                              (lit "free", free estacion)]) l in
      DataFrame_of_records data
  end.

End Ej1d1.

(* ================================================================== *)
(** * More of the object protocol                                      *)
(* ================================================================== *)

Module PyObject.

Fixpoint startswith (s prefix : pystr) : bool :=
  match prefix, s with
  | [], _ => true
  | a :: p', b :: s' => (a =? b)%N && startswith s' p'
  | _ :: _, [] => false
  end.

(** [needle in hay] for two [str]: [needle] occurs in [hay]. *)
Fixpoint str_contains (hay needle : pystr) : bool :=
  startswith hay needle
  || match hay with
     | [] => false
     | _ :: t => str_contains t needle
     end.

(** [list(obj.keys())]: only a [dict] has the method. *)
Definition py_keys (obj : pyval) : result (list pystr) :=
  match obj with
  | PDict d => Ok (map fst d)
  | _ => Raise AttributeError
  end.

(** [obj.items()], run to the end. *)
Definition py_items (obj : pyval) : result (list (pystr * pyval)) :=
  match obj with
  | PDict d => Ok d
  | _ => Raise AttributeError
  end.

(** [key in obj] for a [str] key: a key of a [dict], an element of a
    list or tuple, a substring of a [str]; other objects are not
    containers. *)
Definition py_in (key : pystr) (obj : pyval) : result bool :=
  match obj with
  | PDict d =>
      Ok (match dict_lookup d key with Some _ => true | None => false end)
  | PList l | PTuple l => Ok (existsb (fun x => Ej1c2.eq_str x key) l)
  | PStr s => Ok (str_contains s key)
  | PNone | PBool _ | PInt _ | PFloat _ => Raise TypeError
  end.

(** [obj[key]] for a [str] key: only a [dict] can be indexed by one. *)
Definition py_getitem (obj : pyval) (key : pystr) : result pyval :=
  match obj with
  | PDict d =>
      match dict_lookup d key with
      | Some v => Ok v
      | None => Raise KeyError
      end
  | _ => Raise TypeError
  end.

End PyObject.

Import PyObject.

(* ================================================================== *)
(** * [1c/ej1c2.py]: the request                                       *)
(* ================================================================== *)

Module Ej1c2Feed.

(** What the function reads of a [requests.Response]: the status and
    the outcome of [response.json()], a parsed document or an error. *)
Record Response : Type := { status_code : Z; json : result pyval }.

Section WithNetwork.

(** [requests.get]: the network answers or the call raises. *)
Variable requests_get : pystr -> result Response.

(** [get_stations_data()] *)
Definition get_stations_data : result pyval :=
  let url :=
    lit "https://barcelona.publicbikesystem.net/customer/gbfs/v2/en/station_information" in
  Ej1a1.try_except_Exception
    (bind (requests_get url) (fun response =>
       if (status_code response =? 200)%Z
       then bind (json response) (fun json_data =>
              Ej1c2.py_get json_data (lit "data"))
       else Ok PNone))
    (Ok PNone).

End WithNetwork.

End Ej1c2Feed.

(* ================================================================== *)
(** * [1d/ej1d1.py]: the functions that call [pybikes]                 *)
(* ================================================================== *)

Module Ej1d1Systems.

(** A [pybikes] system object: [update()] fetches the stations and
    stores them, or raises; [refreshed] is what [sistema.stations]
    holds after the call. *)
Record BikeShareSystem : Type := {
  refreshed : result (list Ej1d1.Station)
}.

Section WithPybikes.

(** [str.lower] of the run time (full Unicode case mapping). *)
Variable str_lower : pystr -> pystr.

(** [pybikes.get_all_data()]: its value, or the exception it raises. *)
Variable get_all_data : result pyval.

(** [pybikes.get(tag)] *)
Variable pybikes_get : pystr -> result BikeShareSystem.

(** [obj.lower()]: only a [str] has the method. *)
Definition py_lower (obj : pyval) : result pystr :=
  match obj with
  | PStr s => Ok (str_lower s)
  | _ => Raise AttributeError
  end.

(** [listar_sistemas_disponibles()] *)
Definition listar_sistemas_disponibles : result (list pystr) :=
  Ej1a1.try_except_Exception
    (bind get_all_data py_keys)
    (Ok []).

(** The [for] loop of [buscar_sistema_por_ciudad]. *)
Fixpoint buscar_loop (ciudad_lower : pystr) (items : list (pystr * pyval))
         (resultados : list pystr) : result (list pystr) :=
  match items with
  | [] => Ok resultados
  | (tag, info) :: rest =>
      bind (Ej1c2.py_get_default info (lit "city") (PStr [])) (fun city =>
      bind (py_lower city) (fun system_city =>
      bind (Ej1c2.py_get_default info (lit "name") (PStr [])) (fun nm =>
      bind (py_lower nm) (fun system_name =>
      if str_contains system_city ciudad_lower
         || str_contains system_name ciudad_lower
      then buscar_loop ciudad_lower rest (resultados ++ [tag])
      else buscar_loop ciudad_lower rest resultados))))
  end.

(** [buscar_sistema_por_ciudad(ciudad)] *)
Definition buscar_sistema_por_ciudad (ciudad : pystr) : result (list pystr) :=
  Ej1a1.try_except_Exception
    (bind get_all_data (fun all_data =>
     let resultados := [] in
     let ciudad_lower := str_lower ciudad in
     bind (py_items all_data) (fun items =>
     buscar_loop ciudad_lower items resultados)))
    (Ok []).

(** [obtener_info_sistema(tag)] *)
Definition obtener_info_sistema (tag : pystr) : result pyval :=
  Ej1a1.try_except_Exception
    (bind get_all_data (fun all_data =>
     bind (py_in tag all_data) (fun found =>
     if found then py_getitem all_data tag else Ok PNone)))
    (Ok PNone).

(** [obtener_estaciones(tag)]; Python's [None] is [None]. *)
Definition obtener_estaciones (tag : pystr)
  : result (option (list Ej1d1.Station)) :=
  Ej1a1.try_except_Exception
    (bind (pybikes_get tag) (fun sistema =>
     bind (refreshed sistema) (fun stations =>
     Ok (Some stations))))
    (Ok None).

End WithPybikes.

End Ej1d1Systems.

(* ================================================================== *)
(** * [1a/ej1a1.py]: the script                                        *)
(* ================================================================== *)

Module Ej1a1Main.

(** The body under [if __name__ == "__main__"]: the line it prints. *)
Definition main (requests_get : pystr -> result Ej1a1.Response)
  : result pystr :=
  bind (Ej1a1.get_user_ip requests_get) (fun ip =>
  match ip with
  | Some ((_ :: _) as ip) =>
      Ok (lit "Tu direcci" ++ [243%N] ++ lit "n IP p" ++ [250%N]
          ++ lit "blica es: " ++ ip)
  | _ =>
      Ok (lit "No se pudo obtener la direcci" ++ [243%N] ++ lit "n IP")
  end).

End Ej1a1Main.

(* ================================================================== *)
(** * Specification-side vocabulary                                    *)
(* ================================================================== *)

Import Json.

(** The part of a header value before its first comma. *)
Fixpoint before_comma (s : pystr) : pystr :=
  match s with
  | [] => []
  | c :: t => if (c =? ch ",")%N then [] else c :: before_comma t
  end.

(** A header is present and non-empty. *)
Definition present (v : option pystr) : bool :=
  match v with Some (_ :: _) => true | _ => false end.

(** Code points of Unicode text: below [0x110000] and not a surrogate. *)
Definition scalar (c : N) : Prop :=
  (c < 55296 \/ 57343 < c)%N /\ (c < 1114112)%N.

Definition ascii_only (s : pystr) : bool := forallb (fun c => (c <? 128)%N) s.

(** [json.loads(body.decode())] *)
Definition decode_json (body : list Byte.byte) : result pyval :=
  bind (decode body) Json.loads.

(** [json.dumps(obj).encode()] *)
Definition encode_json (obj : pyval) : result (list Byte.byte) :=
  bind (Json.dumps obj) encode.

(** The objects the handlers serialize. *)
Definition ip_object (ip : pystr) : pyval := PDict [(lit "ip", PStr ip)].

Definition error_object (requested : pystr) : pyval :=
  PDict [(lit "code", PInt 404);
         (lit "message",
          PStr (lit "Recurso " ++ requested ++ lit " no encontrado"))].

Definition not_found_object : pyval :=
  PDict [(lit "error", PStr (lit "Not Found"))].

(** The address of the echo service [get_user_ip] asks. *)
Definition ipify : pystr := lit "https://api.ipify.org".

(** A station record is a [dict]. *)
Definition is_dict (v : pyval) : bool :=
  match v with PDict _ => true | _ => false end.

(** The shape of the feed's [data] object, or [None]: a [dict] whose
    "stations" entry, if there is one, is a list of station records (or
    any object that counts as false). *)
Definition feed_shaped (stations_data : pyval) : bool :=
  match stations_data with
  | PNone => true
  | PDict d =>
      match dict_lookup d (lit "stations") with
      | None => true
      | Some (PList l) => forallb is_dict l
      | Some v => negb (truthy v)
      end
  | _ => false
  end.

(** The station list of such an object; empty when there is none. *)
Definition stations_of (stations_data : pyval) : list pyval :=
  match stations_data with
  | PDict d =>
      match dict_lookup d (lit "stations") with
      | Some (PList l) => l
      | _ => []
      end
  | _ => []
  end.

(** The record's "station_id" equals [station_id]. *)
Definition has_id (station_id : pystr) (station : pyval) : bool :=
  match station with
  | PDict d => Ej1c2.eq_str (dict_get d (lit "station_id")) station_id
  | _ => false
  end.

Definition or_None (v : option pyval) : pyval :=
  match v with Some x => x | None => PNone end.

(** What [create_stations_dataframe] reads of a station record. *)
Definition station_values (station : pyval) : list pyval :=
  match station with
  | PDict d => [dict_get d (lit "station_id"); dict_get d (lit "lat");
                dict_get d (lit "lon"); dict_get d (lit "name")]
  | _ => []
  end.

(** The row a station record contributes to the table of [ej1c2.py]. *)
Definition station_row (station : pyval) : list cell :=
  map From (station_values station).

Definition station_columns : list pystr :=
  [lit "station_id"; lit "latitude"; lit "longitude"; lit "name"].

(** The row a station object contributes to the table of [ej1d1.py]. *)
Definition estacion_row (e : Ej1d1.Station) : list cell :=
  [From (Ej1d1.name e); From (Ej1d1.latitude e); From (Ej1d1.longitude e);
   From (Ej1d1.bikes e); From (Ej1d1.free e)].

Definition estacion_columns : list pystr :=
  [lit "name"; lit "latitude"; lit "longitude"; lit "bikes"; lit "free"].

(** The object each [do_GET] serializes for [self], [ip] being the
    resolved address. *)
Definition ej1a3_object (self : handler) (ip : pystr) : pyval :=
  if str_eqb (path self) (lit "/ip") then ip_object ip else not_found_object.

Definition ej1b3_object (self : handler) (ip : pystr) : pyval :=
  if str_eqb (path self) (lit "/ip") then ip_object ip
  else error_object (path self).

(** All the strings of a request are Unicode text. *)
Definition text_handler (self : handler) : Prop :=
  Forall scalar (path self)
  /\ Forall (fun kv => Forall scalar (snd kv)) (headers self)
  /\ Forall scalar (fst (client_address self)).

(** The resolver has nothing but white space, or nothing at all, to
    return. *)
Definition resolves_empty (self : handler) : bool :=
  match headers_get (headers self) (lit "X-Forwarded-For") with
  | Some ((_ :: _) as v) => forallb isspace (before_comma v)
  | _ =>
      match headers_get (headers self) (lit "X-Real-IP") with
      | Some (_ :: _) => false
      | _ => match fst (client_address self) with
             | [] => true
             | _ :: _ => false
             end
      end
  end.

(** The headers [send_response] and the handler put on a response. *)
Definition json_headers (self : handler) : list (pystr * pystr) :=
  [(lit "Server", version_string self);
   (lit "Date", date_time_string self);
   (lit "Content-Type", lit "application/json")].

(** What the response writer leaves for a status [code] and a [body]:
    status line, headers and body, or the body alone for an HTTP/0.9
    request. *)
Definition answer (self : handler) (code : Z) (body : list Byte.byte) : wire :=
  if with_headers self
  then {| status := Some code; sent_headers := json_headers self;
          headers_ended := true; wfile := body |}
  else {| status := None; sent_headers := []; headers_ended := false;
          wfile := body |}.

(* ================================================================== *)
(** * Sample requests, answers and feeds                               *)
(* ================================================================== *)




(** A request that came through a proxy, with both headers set. *)
Definition behind_proxy : handler :=
  {| path := lit "/ip";
     headers := [(lit "Host", lit "localhost:8000");
                 (lit "X-Real-IP", lit "9.9.9.9");
                 (lit "x-forwarded-for", lit "1.2.3.4, 5.6.7.8")];
     client_address := (lit "127.0.0.1", 51234%Z);
     request_version := lit "HTTP/1.1";
     version_string := lit "BaseHTTP/0.6 Python/3.12.0";
     date_time_string := lit "Wed, 04 Nov 2026 10:00:00 GMT" |}.

(** A request whose path carries a query string. *)
Definition with_query : handler :=
  {| path := lit "/ip?x=1";
     headers := [(lit "Host", lit "localhost:8000")];
     client_address := (lit "127.0.0.1", 51234%Z);
     request_version := lit "HTTP/1.1";
     version_string := lit "BaseHTTP/0.6 Python/3.12.0";
     date_time_string := lit "Wed, 04 Nov 2026 10:00:00 GMT" |}.

(** A network on which the service answers, and one on which the
    connection fails. *)
Definition answers (code : Z) (body : pystr) (url : pystr)
  : result Ej1a1.Response :=
  Ok {| Ej1a1.status_code := code; Ej1a1.text := body |}.

Definition unreachable (url : pystr) : result Ej1a1.Response :=
  Raise RequestException.

(** A feed with two stations; the second lacks its longitude. *)
Definition plaza : pyval :=
  PDict [(lit "station_id", PStr (lit "1")); (lit "name", PStr (lit "Plaza"));
         (lit "lat", PInt 41); (lit "lon", PInt 2)].

Definition puerto : pyval :=
  PDict [(lit "station_id", PStr (lit "2")); (lit "name", PStr (lit "Puerto"));
         (lit "lat", PInt 42)].

Definition two_stations : pyval :=
  PDict [(lit "stations", PList [plaza; puerto])].

(** The records [crear_dataframe_estaciones] collects. *)
Definition estacion_record (e : Ej1d1.Station) : dict :=
  dict_of_pairs [(lit "name", Ej1d1.name e);
                 (lit "latitude", Ej1d1.latitude e);
                 (lit "longitude", Ej1d1.longitude e);
                 (lit "bikes", Ej1d1.bikes e);
                 (lit "free", Ej1d1.free e)].

(** The records [create_stations_dataframe] collects. *)
Definition station_record (station : pyval) : dict :=
  match station_values station with
  | [sid; lat; lon; name] =>
      dict_of_pairs [(lit "station_id", sid); (lit "latitude", lat);
                     (lit "longitude", lon); (lit "name", name)]
  | _ => []
  end.



(* ================================================================== *)
(** * Vocabulary for the remaining functions                           *)
(* ================================================================== *)

(** The address of the station feed. *)
Definition gbfs_url : pystr :=
  lit "https://barcelona.publicbikesystem.net/customer/gbfs/v2/en/station_information".

(** The request did not deliver a JSON object with status 200: another
    status, an exception below [Exception] from the request or from the
    parser, or a document that is not an object. *)
Definition request_failed (outcome : result Ej1c2Feed.Response) : bool :=
  match outcome with
  | Raise e => is_Exception e
  | Ok r =>
      if (Ej1c2Feed.status_code r =? 200)%Z
      then match Ej1c2Feed.json r with
           | Ok v => negb (is_dict v)
           | Raise e => is_Exception e
           end
      else true
  end.

(** The coordinates of a record, as [get_station_coordinates] gives
    them. *)
Definition coordinates_of (station : pyval) : pyval :=
  match station with
  | PDict d =>
      match dict_get d (lit "lat"), dict_get d (lit "lon") with
      | PNone, _ | _, PNone => PNone
      | lat, lon => PTuple [lat; lon]
      end
  | _ => PNone
  end.

(** A network on which the feed answers with a status and a document,
    and one on which the connection fails. *)
Definition feed_answers (code : Z) (document : result pyval) (url : pystr)
  : result Ej1c2Feed.Response :=
  Ok {| Ej1c2Feed.status_code := code; Ej1c2Feed.json := document |}.

Definition feed_unreachable (url : pystr) : result Ej1c2Feed.Response :=
  Raise RequestException.

(** A feed of two stations inside a document, and a list with a stray
    identifier among the records. *)
Definition two_stations_dict : dict := [(lit "stations", PList [plaza; puerto])].

Definition stray_entry : dict :=
  [(lit "stations", PList [plaza; PStr (lit "2"); puerto])].

(** Printable ASCII: the code points from the space to the tilde. *)
Definition printable (s : pystr) : bool :=
  forallb (fun c => (32 <=? c) && (c <=? 126))%N s.

(** Two requests for paths that are not routed. *)
Definition unknown_request : request :=
  {| target := "/unknown";
     version := "HTTP/1.1";
     header_lines := [("Host", "localhost:8000")]%string;
     peer := ("192.0.2.10"%string, 40112%Z);
     server_banner := "BaseHTTP/0.6 Python/3.12.0";
     date_stamp := "Wed, 04 Nov 2026 10:00:00 GMT" |}.

Definition users_request : request :=
  {| target := "/api/users";
     version := "HTTP/1.1";
     header_lines := [("Host", "localhost:8000")]%string;
     peer := ("192.0.2.10"%string, 40112%Z);
     server_banner := "BaseHTTP/0.6 Python/3.12.0";
     date_stamp := "Wed, 04 Nov 2026 10:00:00 GMT" |}.

Definition is_str (v : pyval) : bool :=
  match v with PStr _ => true | _ => false end.

Definition str_of (v : pyval) : pystr :=
  match v with PStr s => s | _ => [] end.

(** The metadata of a system as the search expects it: a [dict] whose
    "city" and "name", where present, are strings. *)
Definition well_formed_info (info : pyval) : bool :=
  match info with
  | PDict d =>
      is_str (dict_get_default d (lit "city") (PStr []))
      && is_str (dict_get_default d (lit "name") (PStr []))
  | _ => false
  end.

(** The lowered city or the lowered name of the system holds [needle]. *)
Definition mentions (str_lower : pystr -> pystr) (needle : pystr)
           (info : pyval) : bool :=
  match info with
  | PDict d =>
      str_contains (str_lower (str_of (dict_get_default d (lit "city") (PStr []))))
                   needle
      || str_contains (str_lower (str_of (dict_get_default d (lit "name") (PStr []))))
                      needle
  | _ => false
  end.

(** The data of two systems, and the same with a null city in between. *)
Definition bicing_info : pyval :=
  PDict [(lit "name", PStr (lit "Bicing")); (lit "city", PStr (lit "Barcelona"))].

Definition bizi_info : pyval :=
  PDict [(lit "name", PStr (lit "Bizi")); (lit "city", PStr (lit "Zaragoza"))].

Definition two_systems : dict :=
  [(lit "bicing", bicing_info); (lit "bizi", bizi_info)].

Definition null_city : dict :=
  [(lit "bicing", bicing_info);
   (lit "ghost", PDict [(lit "city", PNone)]);
   (lit "bizi", bizi_info)].

(** A station object, a system that refreshes to it, and a library in
    which only "bicing" is known. *)
Definition una_estacion : Ej1d1.Station :=
  {| Ej1d1.name := PStr (lit "Plaza"); Ej1d1.latitude := PInt 41;
     Ej1d1.longitude := PInt 2; Ej1d1.bikes := PInt 5; Ej1d1.free := PInt 7 |}.

Definition only_bicing (tag : pystr) : result Ej1d1Systems.BikeShareSystem :=
  if str_eqb tag (lit "bicing")
  then Ok {| Ej1d1Systems.refreshed := Ok [una_estacion] |}
  else Raise KeyError.

(** The two lines the script of [ej1a1.py] can print. *)
Definition ip_line (ip : pystr) : pystr :=
  lit "Tu direcci" ++ [243%N] ++ lit "n IP p" ++ [250%N]
  ++ lit "blica es: " ++ ip.

Definition no_ip_line : pystr :=
  lit "No se pudo obtener la direcci" ++ [243%N] ++ lit "n IP".

(* ================================================================== *)
(** * Strings                                                          *)
(* ================================================================== *)

Lemma str_eqb_eq (a b : pystr) : str_eqb a b = true <-> a = b.
Proof.
  unfold str_eqb. destruct (list_eq_dec N.eq_dec a b); split; congruence.
Qed.

Lemma str_eqb_neq (a b : pystr) : str_eqb a b = false <-> a <> b.
Proof.
  unfold str_eqb. destruct (list_eq_dec N.eq_dec a b); split; congruence.
Qed.

Lemma split_cons (sep : N) (s : pystr) :
  exists w ws, split sep s = w :: ws.
Proof.
  induction s as [|c t [w [ws IH]]]; simpl.
  - now exists [], [].
  - destruct (c =? sep)%N; [now eexists; eexists|].
    rewrite IH. now eexists; eexists.
Qed.

Lemma split_head (s : pystr) :
  index (split (ch ",") s) 0 = Ok (before_comma s).
Proof.
  induction s as [|c t IH]; cbn [split before_comma]; [reflexivity|].
  destruct (c =? ch ",")%N; [reflexivity|].
  destruct (split_cons (ch ",") t) as [w [ws E]].
  rewrite E in *. unfold index in *. simpl in *. congruence.
Qed.

Lemma lstrip_nil_iff (s : pystr) : lstrip s = [] <-> forallb isspace s = true.
Proof.
  induction s as [|c t IH]; simpl; [tauto|].
  destruct (isspace c); simpl; [exact IH|]. split; discriminate.
Qed.

Lemma forallb_rev {A} (f : A -> bool) (l : list A) :
  forallb f (rev l) = forallb f l.
Proof.
  induction l as [|a l IH]; simpl; [reflexivity|].
  rewrite forallb_app, IH. simpl. rewrite andb_true_r. apply andb_comm.
Qed.

Lemma lstrip_suffix (s : pystr) :
  exists l, s = l ++ lstrip s /\ forallb isspace l = true.
Proof.
  induction s as [|c t [l [E H]]]; simpl.
  - now exists [].
  - destruct (isspace c) eqn:Hc.
    + exists (c :: l). split.
      * simpl. f_equal. exact E.
      * simpl. now rewrite Hc.
    + now exists [].
Qed.

(** [strip] removes a run of white space at each end and nothing else. *)
Lemma strip_spec (s : pystr) :
  exists l r, s = l ++ strip s ++ r
              /\ forallb isspace l = true /\ forallb isspace r = true.
Proof.
  unfold strip, rstrip.
  destruct (lstrip_suffix s) as [l [El Hl]].
  destruct (lstrip_suffix (rev (lstrip s))) as [r [Er Hr]].
  exists l, (rev r). rewrite forallb_rev. repeat split; trivial.
  rewrite <- rev_app_distr, <- Er, rev_involutive. exact El.
Qed.

Lemma strip_nil_iff (s : pystr) : strip s = [] <-> forallb isspace s = true.
Proof.
  unfold strip, rstrip. split.
  - intros H.
    assert (H1 : lstrip (rev (lstrip s)) = []).
    { destruct (lstrip (rev (lstrip s))) as [|x l']; [reflexivity|].
      simpl in H. apply app_eq_nil in H. destruct H; discriminate. }
    apply lstrip_nil_iff in H1. rewrite forallb_rev in H1.
    destruct (lstrip_suffix s) as [l [E Hl]].
    rewrite E, forallb_app, Hl, H1. reflexivity.
  - intros H. apply lstrip_nil_iff in H. now rewrite H.
Qed.

(* ================================================================== *)
(** * The client-IP resolver                                           *)
(* ================================================================== *)

(** The three rules of the resolver, first match first. *)
Lemma get_client_ip_eq (self : handler) :
  Ej1a3._get_client_ip self =
  Ok (match headers_get (headers self) (lit "X-Forwarded-For") with
      | Some ((_ :: _) as v) => strip (before_comma v)
      | _ =>
          match headers_get (headers self) (lit "X-Real-IP") with
          | Some ((_ :: _) as v) => v
          | _ => fst (client_address self)
          end
      end).
Proof.
  unfold Ej1a3._get_client_ip.
  destruct (headers_get (headers self) (lit "X-Forwarded-For")) as [[|c v]|].
  - destruct (headers_get (headers self) (lit "X-Real-IP")) as [[|c' v']|];
      reflexivity.
  - now rewrite split_head.
  - destruct (headers_get (headers self) (lit "X-Real-IP")) as [[|c' v']|];
      reflexivity.
Qed.

(** C3: the resolver takes the first comma-separated element of a
    non-empty X-Forwarded-For, stripped; else a non-empty X-Real-IP as
    it is; else the host of the client address. With X-Forwarded-For
    "1.2.3.4, 5.6.7.8" and X-Real-IP "9.9.9.9" it returns "1.2.3.4". *)
Theorem get_client_ip_resolution_order (self : handler) :
  let xff := headers_get (headers self) (lit "X-Forwarded-For") in
  let xri := headers_get (headers self) (lit "X-Real-IP") in
  (forall v, xff = Some v -> v <> [] ->
     Ej1a3._get_client_ip self = Ok (strip (before_comma v)))
  /\ (present xff = false -> forall v, xri = Some v -> v <> [] ->
        Ej1a3._get_client_ip self = Ok v)
  /\ (present xff = false -> present xri = false ->
        Ej1a3._get_client_ip self = Ok (fst (client_address self)))
  /\ (xff = Some (lit "1.2.3.4, 5.6.7.8") -> xri = Some (lit "9.9.9.9") ->
        Ej1a3._get_client_ip self = Ok (lit "1.2.3.4")).
Proof.
  intros xff xri. rewrite get_client_ip_eq. fold xff xri.
  repeat split.
  - intros v E Hv. rewrite E. destruct v as [|c v']; [contradiction|reflexivity].
  - intros Hx v E Hv. rewrite E.
    destruct xff as [[|]|]; try discriminate;
      (destruct v as [|c v']; [contradiction|reflexivity]).
  - intros Hx Hr.
    destruct xff as [[|]|]; try discriminate;
      destruct xri as [[|]|]; try discriminate; reflexivity.
  - intros -> ->. reflexivity.
Qed.

Lemma get_client_ip_resolution_order_witness :
  Ej1a3._get_client_ip behind_proxy = Ok (lit "1.2.3.4")
  /\ Ej1a3._get_client_ip behind_proxy
     = Ok (strip (before_comma (lit "1.2.3.4, 5.6.7.8"))).
Proof.
  destruct (get_client_ip_resolution_order behind_proxy) as [H1 [_ [_ H4]]].
  split.
  - apply H4; reflexivity.
  - apply H1; [reflexivity | discriminate].
Defined.

(* ================================================================== *)
(** * [json.dumps] writes ASCII, which UTF-8 leaves as it is           *)
(* ================================================================== *)

Lemma ascii_only_app (a b : pystr) :
  ascii_only (a ++ b) = ascii_only a && ascii_only b.
Proof. apply forallb_app. Qed.

Lemma hexdigit_ascii (d : N) : (d < 16)%N -> (hexdigit d <? 128)%N = true.
Proof.
  intros H. unfold hexdigit. apply N.ltb_lt.
  destruct (d <? 10)%N; lia.
Qed.

Lemma u_escape_ascii (n : N) : ascii_only (u_escape n) = true.
Proof.
  unfold u_escape, hex4, ascii_only. cbn [forallb ch N_of_ascii].
  rewrite !hexdigit_ascii by (apply N.mod_lt; discriminate).
  reflexivity.
Qed.

Lemma escape_cp_ascii (c : N) : ascii_only (escape_cp c) = true.
Proof.
  unfold escape_cp.
  destruct ((32 <=? c) && (c <=? 126) && negb (c =? 92) && negb (c =? 34))%N
    eqn:E.
  - cbn. rewrite andb_true_r. apply N.ltb_lt.
    rewrite !andb_true_iff in E. destruct E as [[[_ E] _] _].
    apply N.leb_le in E. lia.
  - repeat match goal with
           | |- context [if ?b then _ else _] => destruct b
           end; try reflexivity; try apply u_escape_ascii.
    rewrite ascii_only_app, !u_escape_ascii. reflexivity.
Qed.

Lemma escape_ascii (s : pystr) : ascii_only (escape s) = true.
Proof.
  induction s as [|c t IH]; [reflexivity|].
  unfold escape in *. cbn [flat_map].
  now rewrite ascii_only_app, escape_cp_ascii, IH.
Qed.

Lemma encode_basestring_ascii_ascii (s : pystr) :
  ascii_only (encode_basestring_ascii s) = true.
Proof.
  unfold encode_basestring_ascii.
  change (34%N :: escape s ++ [34%N]) with ([34%N] ++ escape s ++ [34%N]).
  now rewrite !ascii_only_app, escape_ascii.
Qed.

Lemma encode_ascii (s : pystr) :
  ascii_only s = true -> encode s = Ok (map byte_of_N s).
Proof.
  induction s as [|c t IH]; [reflexivity|].
  cbn [ascii_only forallb]. intros H. apply andb_true_iff in H.
  destruct H as [Hc Ht]. cbn [encode map]. unfold utf8_cp.
  rewrite Hc. cbn [bind]. rewrite (IH Ht). reflexivity.
Qed.

Lemma to_N_byte_of_N (c : N) : (c < 256)%N -> Byte.to_N (byte_of_N c) = c.
Proof.
  intros H. unfold byte_of_N.
  destruct (Byte.of_N c) as [b|] eqn:E.
  - now apply Byte.to_of_N.
  - apply Byte.of_N_None_iff in E. lia.
Qed.

Lemma decode_ascii (s : pystr) :
  ascii_only s = true -> decode (map byte_of_N s) = Ok s.
Proof.
  induction s as [|c t IH]; [reflexivity|].
  cbn [ascii_only forallb]. intros H. apply andb_true_iff in H.
  destruct H as [Hc Ht]. cbn [decode map].
  assert (Hlt : (c < 128)%N) by now apply N.ltb_lt.
  rewrite to_N_byte_of_N by lia. rewrite Hc, (IH Ht). reflexivity.
Qed.

(** Text that [json.dumps] produced survives [encode] and [decode]. *)
Lemma decode_encode_ascii (s : pystr) :
  ascii_only s = true ->
  exists body, encode s = Ok body /\ decode body = Ok s.
Proof.
  intros H. exists (map byte_of_N s).
  split; [now apply encode_ascii | now apply decode_ascii].
Qed.

(* ================================================================== *)
(** * The dispatcher                                                   *)
(* ================================================================== *)

Lemma dumps_ip_object (ip : pystr) :
  dumps (ip_object ip) =
  Ok (lit "{" ++ (encode_basestring_ascii (lit "ip") ++ lit ": "
                  ++ encode_basestring_ascii ip) ++ lit "}").
Proof. reflexivity. Qed.

Lemma dumps_error_object (p : pystr) :
  dumps (error_object p) =
  Ok (lit "{"
      ++ ((encode_basestring_ascii (lit "code") ++ lit ": " ++ lit "404")
          ++ lit ", "
          ++ (encode_basestring_ascii (lit "message") ++ lit ": "
              ++ encode_basestring_ascii
                   (lit "Recurso " ++ p ++ lit " no encontrado")))
      ++ lit "}").
Proof. reflexivity. Qed.

Lemma dumps_ip_object_ascii (ip : pystr) :
  exists text, dumps (ip_object ip) = Ok text /\ ascii_only text = true.
Proof.
  eexists. split; [apply dumps_ip_object|].
  now rewrite !ascii_only_app, !encode_basestring_ascii_ascii.
Qed.

Lemma dumps_error_object_ascii (p : pystr) :
  exists text, dumps (error_object p) = Ok text /\ ascii_only text = true.
Proof.
  eexists. split; [apply dumps_error_object|].
  now rewrite !ascii_only_app, !encode_basestring_ascii_ascii.
Qed.

Lemma encode_json_ip_object (ip : pystr) :
  exists body, encode_json (ip_object ip) = Ok body.
Proof.
  destruct (dumps_ip_object_ascii ip) as [text [E A]].
  exists (map byte_of_N text). unfold encode_json. rewrite E.
  now apply encode_ascii.
Qed.

Lemma encode_json_error_object (p : pystr) :
  exists body, encode_json (error_object p) = Ok body.
Proof.
  destruct (dumps_error_object_ascii p) as [text [E A]].
  exists (map byte_of_N text). unfold encode_json. rewrite E.
  now apply encode_ascii.
Qed.

(** What [do_GET] leaves on the wire, given the resolved address and
    the encoded body. *)
Lemma answer_wfile (self : handler) (code : Z) (body : list Byte.byte) :
  wfile (answer self code body) = body.
Proof. unfold answer. now destruct (with_headers self). Qed.




Lemma do_GET_ip_wire (self : handler) (ip : pystr) (body : list Byte.byte) :
  path self = lit "/ip" ->
  Ej1a3._get_client_ip self = Ok ip ->
  encode_json (ip_object ip) = Ok body ->
  response_of (Ej1a3.do_GET self) = Ok (answer self 200 body).
Proof.
  intros Hp Hip Hb. unfold response_of, Ej1a3.do_GET.
  rewrite Hp. change (str_eqb (lit "/ip") (lit "/ip")) with true. cbv iota.
  unfold mbind at 1. unfold lift at 1. rewrite Hip.
  unfold encode_json in Hb.
  change (dict_of_pairs [(lit "ip", PStr ip)]) with [(lit "ip", PStr ip)].
  fold (ip_object ip).
  destruct (dumps (ip_object ip)) as [text|e] eqn:Ed; [|discriminate].
  cbn [bind] in Hb.
  unfold answer, mbind, lift, send_response, send_response_only, send_header,
    end_headers, wfile_write, mbind, idle.
  destruct (with_headers self); cbn; rewrite Hb; reflexivity.
Qed.

Lemma not_found_wire (self : handler) (body : list Byte.byte) :
  encode_json (error_object (path self)) = Ok body ->
  response_of (Ej1b3.not_found self) = Ok (answer self 404 body).
Proof.
  intros Hb. unfold response_of, Ej1b3.not_found.
  unfold encode_json in Hb.
  change (PDict (dict_of_pairs
            [(lit "code", PInt 404);
             (lit "message",
              PStr (lit "Recurso " ++ path self ++ lit " no encontrado"))]))
    with (error_object (path self)).
  destruct (dumps (error_object (path self))) as [text|e] eqn:Ed;
    [|discriminate].
  cbn [bind] in Hb.
  unfold answer, mbind, lift, send_response, send_response_only, send_header,
    end_headers, wfile_write, mbind, idle.
  destruct (with_headers self); cbn; rewrite Hb; reflexivity.
Qed.

(** The "/ip" route, in both files. *)
Lemma ip_route_total (self : handler) :
  path self = lit "/ip" ->
  exists ip body,
    Ej1a3._get_client_ip self = Ok ip
    /\ encode_json (ip_object ip) = Ok body
    /\ response_of (Ej1a3.do_GET self) = Ok (answer self 200 body)
    /\ response_of (Ej1b3.do_GET self) = response_of (Ej1a3.do_GET self).
Proof.
  intros Hp.
  pose proof (get_client_ip_eq self) as Hip.
  destruct (encode_json_ip_object
              (match headers_get (headers self) (lit "X-Forwarded-For") with
               | Some ((_ :: _) as v) => strip (before_comma v)
               | _ => match headers_get (headers self) (lit "X-Real-IP") with
                      | Some ((_ :: _) as v) => v
                      | _ => fst (client_address self)
                      end
               end)) as [body Hb].
  eexists; exists body.
  split; [exact Hip|]. split; [exact Hb|].
  split; [exact (do_GET_ip_wire self Hp Hip Hb)|].
  unfold Ej1b3.do_GET, Ej1a3.do_GET. rewrite Hp. reflexivity.
Qed.

(** The fall-through route of [ej1b3.py]. *)
Lemma not_found_route_total (self : handler) :
  path self <> lit "/ip" ->
  exists body,
    encode_json (error_object (path self)) = Ok body
    /\ response_of (Ej1b3.do_GET self) = Ok (answer self 404 body).
Proof.
  intros Hp. destruct (encode_json_error_object (path self)) as [body Hb].
  exists body. split; [exact Hb|].
  unfold Ej1b3.do_GET. apply str_eqb_neq in Hp. rewrite Hp.
  exact (not_found_wire self Hb).
Qed.

(** The fall-through route of [ej1a3.py] sends a fixed object instead. *)
Lemma do_GET_1a3_not_found (self : handler) :
  path self <> lit "/ip" ->
  exists body,
    encode_json not_found_object = Ok body
    /\ response_of (Ej1a3.do_GET self) = Ok (answer self 404 body).
Proof.
  intros Hp. eexists. split; [reflexivity|].
  unfold Ej1a3.do_GET. apply str_eqb_neq in Hp. rewrite Hp.
  unfold answer, response_of, mbind, lift, send_response, send_response_only,
    send_header, end_headers, wfile_write, mbind, idle.
  destruct (with_headers self); reflexivity.
Qed.










(* ================================================================== *)
(** * [get_user_ip]                                                    *)
(* ================================================================== *)

(** C7: [get_user_ip] returns the body text on status 200 and [None] on
    any other status; an exception below [Exception] raised by the
    request is turned into [None], so the only exceptions that leave
    the function are those outside [Exception] that the request itself
    raised. *)
Theorem get_user_ip_contract
  (requests_get : pystr -> result Ej1a1.Response) :
  (forall r, requests_get ipify = Ok r -> Ej1a1.status_code r = 200%Z ->
     Ej1a1.get_user_ip requests_get = Ok (Some (Ej1a1.text r)))
  /\ (forall r, requests_get ipify = Ok r -> Ej1a1.status_code r <> 200%Z ->
        Ej1a1.get_user_ip requests_get = Ok None)
  /\ (forall e, requests_get ipify = Raise e -> is_Exception e = true ->
        Ej1a1.get_user_ip requests_get = Ok None)
  /\ (forall e, Ej1a1.get_user_ip requests_get = Raise e ->
        is_Exception e = false /\ requests_get ipify = Raise e).
Proof.
  unfold Ej1a1.get_user_ip, Ej1a1.try_except_Exception. fold ipify.
  repeat split.
  - intros r -> H. cbn [bind]. apply Z.eqb_eq in H. now rewrite H.
  - intros r -> H. cbn [bind]. apply Z.eqb_neq in H. now rewrite H.
  - intros e -> H. cbn [bind]. now rewrite H.
  - destruct (requests_get ipify) as [r|e']; cbn [bind] in H.
    + destruct (Ej1a1.status_code r =? 200)%Z; discriminate.
    + destruct (is_Exception e') eqn:E; [discriminate|]. congruence.
  - destruct (requests_get ipify) as [r|e']; cbn [bind] in H.
    + destruct (Ej1a1.status_code r =? 200)%Z; discriminate.
    + destruct (is_Exception e'); [discriminate|]. congruence.
Qed.

Lemma get_user_ip_contract_witness :
  Ej1a1.get_user_ip (answers 200 (lit "203.0.113.7"))
    = Ok (Some (lit "203.0.113.7"))
  /\ Ej1a1.get_user_ip (answers 503 (lit "Service Unavailable")) = Ok None
  /\ Ej1a1.get_user_ip unreachable = Ok None.
Proof.
  split; [|split].
  - apply (get_user_ip_contract (answers 200 (lit "203.0.113.7")))
      with (r := {| Ej1a1.status_code := 200;
                    Ej1a1.text := lit "203.0.113.7" |}); reflexivity.
  - apply (get_user_ip_contract (answers 503 (lit "Service Unavailable")))
      with (r := {| Ej1a1.status_code := 503;
                    Ej1a1.text := lit "Service Unavailable" |});
      [reflexivity | discriminate].
  - apply (get_user_ip_contract unreachable) with (e := RequestException);
      reflexivity.
Defined.

(* ================================================================== *)
(** * The station feed                                                 *)
(* ================================================================== *)

(** On a list of records the loop is [find]. *)
Lemma get_station_info_loop_find (l : list pyval) (station_id : pystr) :
  forallb is_dict l = true ->
  Ej1c2.get_station_info_loop l station_id
  = Ok (or_None (find (has_id station_id) l)).
Proof.
  induction l as [|st l IH]; [reflexivity|].
  cbn [forallb]. intros H. apply andb_true_iff in H. destruct H as [Hd Hl].
  destruct st as [| | | | | | |d]; try discriminate.
  cbn [Ej1c2.get_station_info_loop Ej1c2.py_get Ej1c2.py_get_default bind
       find has_id].
  fold (dict_get d (lit "station_id")).
  destruct (Ej1c2.eq_str (dict_get d (lit "station_id")) station_id);
    [reflexivity|]. now apply IH.
Qed.

Lemma get_station_info_eq (stations_data : pyval) (station_id : pystr) :
  feed_shaped stations_data = true ->
  Ej1c2.get_station_info stations_data station_id
  = Ok (or_None (find (has_id station_id) (stations_of stations_data))).
Proof.
  unfold feed_shaped, stations_of, Ej1c2.get_station_info.
  destruct stations_data as [| | | | | | |d]; try discriminate;
    [reflexivity|].
  cbn [Ej1c2.is_None Ej1c2.py_get_default bind]. unfold dict_get_default.
  destruct (dict_lookup d (lit "stations")) as [v|]; [|reflexivity].
  destruct v as [|b|z|f|s|l|l|d']; cbn [truthy negb bind Ej1c2.py_iter];
    try reflexivity; intros H; try (rewrite negb_true_iff in H; rewrite H);
    try reflexivity.
  destruct l as [|st l]; [reflexivity|]. cbn [negb].
  now apply get_station_info_loop_find.
Qed.

(** The part of C9 that holds: on the feed's data ([None], or a [dict]
    whose station list holds records) [get_station_info] does not
    raise; it returns the first record, in list order, whose
    "station_id" is the one asked for, and [None] when the data is
    [None], when there is no station list or an empty one, or when no
    record has that id. *)
Lemma get_station_info_spec (stations_data : pyval) (station_id : pystr) :
  feed_shaped stations_data = true ->
  Ej1c2.get_station_info stations_data station_id
  = Ok (or_None (find (has_id station_id) (stations_of stations_data)))
  /\ (stations_data = PNone ->
      Ej1c2.get_station_info stations_data station_id = Ok PNone)
  /\ (stations_of stations_data = [] ->
      Ej1c2.get_station_info stations_data station_id = Ok PNone)
  /\ ((forall st, In st (stations_of stations_data) ->
                  has_id station_id st = false) ->
      Ej1c2.get_station_info stations_data station_id = Ok PNone)
  /\ (forall before st after,
        stations_of stations_data = before ++ st :: after ->
        (forall x, In x before -> has_id station_id x = false) ->
        has_id station_id st = true ->
        Ej1c2.get_station_info stations_data station_id = Ok st).
Proof.
  intros Hs. rewrite (get_station_info_eq _ station_id Hs).
  split; [reflexivity|]. split; [|split; [|split]].
  - intros ->. reflexivity.
  - intros ->. reflexivity.
  - intros Hno.
    destruct (find (has_id station_id) (stations_of stations_data))
      as [st|] eqn:E; [|reflexivity].
    apply find_some in E. destruct E as [Hin Hid].
    rewrite (Hno st Hin) in Hid. discriminate.
  - intros before st after -> Hb Hst. f_equal.
    induction before as [|x before IH]; cbn [app find].
    + now rewrite Hst.
    + rewrite (Hb x (or_introl eq_refl)). apply IH.
      intros y Hy. apply Hb. now right.
Qed.

Lemma get_station_info_spec_witness :
  Ej1c2.get_station_info two_stations (lit "2") = Ok puerto
  /\ Ej1c2.get_station_info two_stations (lit "7") = Ok PNone.
Proof.
  split.
  - apply (get_station_info_spec two_stations (lit "2") eq_refl).
  - destruct (get_station_info_spec two_stations (lit "7") eq_refl)
      as [_ [_ [_ [H _]]]].
    apply H. intros st [<-|[<-|[]]]; reflexivity.
Defined.

(** C9, where it fails: on input data that is not valid, a station
    list that holds identifiers instead of records, [get_station_info]
    raises [AttributeError]; its docstring promises [None] for invalid
    input data, and the claim that it never raises. *)
Theorem get_station_info_raises :
  Ej1c2.get_station_info
    (PDict [(lit "stations", PList [PStr (lit "1"); PStr (lit "2")])])
    (lit "1")
  = Raise AttributeError.
Proof. reflexivity. Qed.

(* ================================================================== *)
(** * The tables                                                       *)
(* ================================================================== *)

(** Records that all carry the labels [cols] add no label to them. *)
Lemma union_keys_stable (cols : list pystr) (data : list dict) :
  Forall (fun d => Forall (fun kv => mem (fst kv) cols = true) d) data ->
  fold_left
    (fun acc d =>
       fold_left (fun acc' kv => if mem (fst kv) acc' then acc'
                                 else acc' ++ [fst kv]) d acc)
    data cols = cols.
Proof.
  induction 1 as [|d data Hd _ IH]; [reflexivity|].
  cbn [fold_left].
  replace (fold_left _ d cols) with cols; [exact IH|].
  clear IH. induction Hd as [|kv d Hkv _ IHd]; [reflexivity|].
  cbn [fold_left]. now rewrite Hkv.
Qed.

Lemma estacion_records_table (e : Ej1d1.Station) (l : list Ej1d1.Station) :
  DataFrame_of_records (map estacion_record (e :: l))
  = {| columns := estacion_columns; rows := map estacion_row (e :: l) |}.
Proof.
  unfold DataFrame_of_records.
  assert (Hc : union_keys (map estacion_record (e :: l)) = estacion_columns).
  { unfold union_keys. cbn [map fold_left].
    change (fold_left _ (estacion_record e) []) with estacion_columns.
    apply union_keys_stable. apply Forall_forall. intros d Hd.
    apply in_map_iff in Hd. destruct Hd as [x [<- _]].
    repeat constructor. }
  rewrite Hc. f_equal. rewrite map_map. apply map_ext. reflexivity.
Qed.

(** C10: for [None] and for the empty list [crear_dataframe_estaciones]
    returns a table, not [None], with no row and the columns name,
    latitude, longitude, bikes, free; for a non-empty list it returns
    those five columns and one row per station, in list order, each
    cell made from the station's attribute of that name (what pandas
    stores in the cell is the conversion of that attribute to the
    column's dtype). *)
Theorem crear_dataframe_estaciones_spec
  (estaciones : option (list Ej1d1.Station)) :
  Ej1d1.crear_dataframe_estaciones estaciones
  = {| columns := [lit "name"; lit "latitude"; lit "longitude";
                   lit "bikes"; lit "free"];
       rows := map (fun e => [From (Ej1d1.name e); From (Ej1d1.latitude e);
                              From (Ej1d1.longitude e); From (Ej1d1.bikes e);
                              From (Ej1d1.free e)])
                   (match estaciones with Some l => l | None => [] end) |}.
Proof.
  destruct estaciones as [[|e l]|]; try reflexivity.
  exact (estacion_records_table e l).
Qed.

Lemma data_list_of_records (l : list pyval) :
  forallb is_dict l = true ->
  Ej1c2.data_list_of l = Ok (map station_record l).
Proof.
  induction l as [|st l IH]; [reflexivity|].
  cbn [forallb]. intros H. apply andb_true_iff in H. destruct H as [Hd Hl].
  destruct st as [| | | | | | |d]; try discriminate.
  cbn [Ej1c2.data_list_of Ej1c2.py_get Ej1c2.py_get_default bind].
  rewrite (IH Hl). reflexivity.
Qed.

Lemma station_records_table (st : pyval) (l : list pyval) :
  forallb is_dict (st :: l) = true ->
  DataFrame_of_records (map station_record (st :: l))
  = {| columns := station_columns; rows := map station_row (st :: l) |}.
Proof.
  intros H. unfold DataFrame_of_records.
  assert (Hrec : forall x, In x (st :: l) ->
            exists d, x = PDict d).
  { intros x Hx. rewrite forallb_forall in H. specialize (H x Hx).
    destruct x; try discriminate. now eexists. }
  assert (Hc : union_keys (map station_record (st :: l)) = station_columns).
  { unfold union_keys. cbn [map fold_left].
    destruct (Hrec st (or_introl eq_refl)) as [d ->].
    change (fold_left _ (station_record (PDict d)) []) with station_columns.
    apply union_keys_stable. apply Forall_forall. intros r Hr.
    apply in_map_iff in Hr. destruct Hr as [x [<- Hx]].
    destruct (Hrec x (or_intror Hx)) as [d' ->]. repeat constructor. }
  rewrite Hc. f_equal. rewrite map_map. apply map_ext_in.
  intros x Hx. destruct (Hrec x Hx) as [d ->]. reflexivity.
Qed.

(** The part of C8 that holds: the pair of coordinates, or [None] for
    [None] and for a record without "lat" or without "lon" (also when
    one of them is null). *)
Lemma get_station_coordinates_spec (d : dict) :
  Ej1c2.get_station_coordinates PNone = Ok PNone
  /\ (dict_lookup d (lit "lat") = None \/ dict_lookup d (lit "lon") = None ->
      Ej1c2.get_station_coordinates (PDict d) = Ok PNone)
  /\ (forall lat lon,
        dict_lookup d (lit "lat") = Some lat ->
        dict_lookup d (lit "lon") = Some lon ->
        lat <> PNone -> lon <> PNone ->
        Ej1c2.get_station_coordinates (PDict d) = Ok (PTuple [lat; lon])).
Proof.
  split; [reflexivity|].
  unfold Ej1c2.get_station_coordinates, Ej1c2.py_get, Ej1c2.py_get_default,
    dict_get_default.
  cbn [Ej1c2.is_None bind]. split.
  - intros [E|E]; rewrite E; cbn [Ej1c2.is_None orb]; [reflexivity|].
    now rewrite orb_true_r.
  - intros lat lon -> -> Hlat Hlon.
    destruct lat; try contradiction; destruct lon; try contradiction;
      reflexivity.
Qed.

(** The part of C8 that holds for the table: [None] for [None] and for
    data without a "stations" entry; for a non-empty list of records,
    the four columns and one row per station, in list order. *)
Lemma create_stations_dataframe_spec (d : dict) (st : pyval) (l : list pyval) :
  Ej1c2.create_stations_dataframe PNone = Ok None
  /\ (dict_lookup d (lit "stations") = None ->
      Ej1c2.create_stations_dataframe (PDict d) = Ok None)
  /\ (dict_lookup d (lit "stations") = Some (PList (st :: l)) ->
      forallb is_dict (st :: l) = true ->
      Ej1c2.create_stations_dataframe (PDict d)
      = Ok (Some {| columns := station_columns;
                    rows := map station_row (st :: l) |})).
Proof.
  split; [reflexivity|].
  unfold Ej1c2.create_stations_dataframe, Ej1c2.py_get, Ej1c2.py_get_default,
    dict_get_default.
  cbn [Ej1c2.is_None bind]. split.
  - intros ->. reflexivity.
  - intros -> H. cbn [Ej1c2.is_None Ej1c2.py_iter bind].
    rewrite (data_list_of_records _ H). cbn [bind].
    now rewrite (station_records_table _ _ H).
Qed.

(** C8, where it fails: for a feed with an empty station list the table
    has no column at all, not the four the docstring names. *)
Theorem create_stations_dataframe_empty :
  Ej1c2.create_stations_dataframe (PDict [(lit "stations", PList [])])
  = Ok (Some {| columns := []; rows := [] |}).
Proof. reflexivity. Qed.

(* ================================================================== *)
(** * [json.loads] reads back what [json.dumps] wrote                  *)
(* ================================================================== *)

Lemma unhex_hexdigit (d : N) : (d < 16)%N -> unhex (hexdigit d) = Some d.
Proof.
  intros H.
  assert (E : (d = 0 \/ d = 1 \/ d = 2 \/ d = 3 \/ d = 4 \/ d = 5 \/ d = 6
               \/ d = 7 \/ d = 8 \/ d = 9 \/ d = 10 \/ d = 11 \/ d = 12
               \/ d = 13 \/ d = 14 \/ d = 15)%N) by lia.
  repeat (destruct E as [->|E]; [reflexivity|]). now subst.
Qed.

Lemma hex_digits_value (n : N) :
  (n < 65536)%N ->
  ((((n / 4096) mod 16 * 16 + (n / 256) mod 16) * 16
    + (n / 16) mod 16) * 16 + n mod 16 = n)%N.
Proof.
  intros H.
  assert (E1 : (n / 256 = (n / 16) / 16)%N)
    by (rewrite N.Div0.div_div; reflexivity).
  assert (E2 : (n / 4096 = (n / 256) / 16)%N)
    by (rewrite N.Div0.div_div; reflexivity).
  assert (H3 : (n / 4096 < 16)%N)
    by (apply N.Div0.div_lt_upper_bound; exact H).
  rewrite (N.mod_small (n / 4096) 16 H3).
  rewrite E2 at 1.
  pose proof (N.div_mod (n / 256) 16) as D2.
  pose proof (N.div_mod (n / 16) 16) as D1.
  pose proof (N.div_mod n 16) as D0.
  rewrite <- E1 in D1. lia.
Qed.

Lemma decode_hex4_hex4 (n : N) :
  (n < 65536)%N ->
  decode_hex4 (hexdigit ((n / 4096) mod 16)) (hexdigit ((n / 256) mod 16))
              (hexdigit ((n / 16) mod 16)) (hexdigit (n mod 16))
  = Some n.
Proof.
  intros H. unfold decode_hex4.
  rewrite !unhex_hexdigit by (apply N.mod_lt; discriminate).
  now rewrite hex_digits_value.
Qed.

(** One step of [scanstring], by the form of what it meets. *)
Lemma scanstring_literal (c : N) (t : pystr) :
  (32 <= c)%N -> c <> 34%N -> c <> 92%N ->
  scanstring (c :: t) = cons_char c (scanstring t).
Proof.
  intros Hc Hq Hb. cbn [scanstring].
  apply N.eqb_neq in Hq, Hb. rewrite Hq, Hb.
  assert (Hl : (c <? 32)%N = false) by (apply N.ltb_ge; exact Hc).
  now rewrite Hl.
Qed.

Lemma scanstring_backslash (e c : N) (t : pystr) :
  e <> 117%N -> backslash e = Some c ->
  scanstring (92%N :: e :: t) = cons_char c (scanstring t).
Proof.
  intros He Hc. cbn [scanstring]. change (92 =? 34)%N with false.
  change (92 =? 92)%N with true. cbv iota.
  apply N.eqb_neq in He. now rewrite He, Hc.
Qed.

Lemma scanstring_u (n : N) (t : pystr) :
  (n < 55296 \/ 56319 < n)%N -> (n < 65536)%N ->
  scanstring (u_escape n ++ t) = cons_char n (scanstring t).
Proof.
  intros Hs Hn. unfold u_escape, hex4. cbn [app ch N_of_ascii scanstring].
  change (92 =? 34)%N with false. change (92 =? 92)%N with true.
  change (117 =? 117)%N with true. cbv iota.
  rewrite (decode_hex4_hex4 Hn).
  assert (Hh : ((55296 <=? n) && (n <=? 56319))%N = false).
  { apply andb_false_iff. destruct Hs as [Hs|Hs];
      [left; apply N.leb_gt | right; apply N.leb_gt]; exact Hs. }
  now rewrite Hh.
Qed.

Lemma scanstring_pair (hi lo : N) (t : pystr) :
  (55296 <= hi <= 56319)%N -> (56320 <= lo <= 57343)%N ->
  scanstring (u_escape hi ++ u_escape lo ++ t)
  = cons_char (65536 + N.lor (N.shiftl (hi - 55296) 10) (lo - 56320))%N
              (scanstring t).
Proof.
  intros Hhi Hlo. unfold u_escape, hex4.
  cbn [app ch N_of_ascii scanstring].
  change (92 =? 34)%N with false. change (92 =? 92)%N with true.
  change (117 =? 117)%N with true. cbv iota.
  rewrite (@decode_hex4_hex4 hi) by lia.
  assert (Hh : ((55296 <=? hi) && (hi <=? 56319))%N = true).
  { apply andb_true_iff. split; apply N.leb_le; lia. }
  rewrite Hh. cbn [starts_bs_u andb]. change (92 =? 92)%N with true.
  change (117 =? 117)%N with true. cbn [andb].
  rewrite (@decode_hex4_hex4 lo) by lia.
  assert (Hl : ((56320 <=? lo) && (lo <=? 57343))%N = true).
  { apply andb_true_iff. split; apply N.leb_le; lia. }
  now rewrite Hl.
Qed.

Lemma land_shiftl_low (a b : N) :
  (b < 1024)%N -> N.land (N.shiftl a 10) b = 0%N.
Proof.
  intros H. apply N.bits_inj_0. intros k. rewrite N.land_spec.
  destruct (N.lt_ge_cases k 10) as [Hk|Hk].
  - now rewrite N.shiftl_spec_low.
  - rewrite <- (N.mod_small b (2 ^ 10)) by exact H.
    rewrite N.mod_pow2_bits_high by exact Hk. apply andb_false_r.
Qed.

Lemma lor_shiftl_low (a b : N) :
  (b < 1024)%N -> N.lor (N.shiftl a 10) b = (a * 1024 + b)%N.
Proof.
  intros H. rewrite <- N.lxor_lor, <- N.add_nocarry_lxor
    by now apply land_shiftl_low.
  now rewrite N.shiftl_mul_pow2.
Qed.

(** The two halves [escape_cp] writes for a code point above [0xFFFF],
    and what [scanstring] makes of them. *)
Lemma surrogate_pair (c : N) :
  (65536 <= c < 1114112)%N ->
  let n := (c - 65536)%N in
  let s1 := N.lor 55296 (N.land (N.shiftr n 10) 1023) in
  let s2 := N.lor 56320 (N.land n 1023) in
  (55296 <= s1 <= 56319)%N /\ (56320 <= s2 <= 57343)%N
  /\ (65536 + N.lor (N.shiftl (s1 - 55296) 10) (s2 - 56320) = c)%N.
Proof.
  intros Hc n s1 s2.
  assert (Hn : (n < 1048576)%N) by (unfold n; lia).
  assert (Hq : (N.land (N.shiftr n 10) 1023 = n / 1024)%N).
  { change 1023%N with (N.ones 10). rewrite N.land_ones, N.shiftr_div_pow2.
    apply N.mod_small. apply N.Div0.div_lt_upper_bound. exact Hn. }
  assert (Hr : (N.land n 1023 = n mod 1024)%N).
  { change 1023%N with (N.ones 10). now rewrite N.land_ones. }
  assert (Hq' : (n / 1024 < 1024)%N)
    by (apply N.Div0.div_lt_upper_bound; exact Hn).
  assert (Hr' : (n mod 1024 < 1024)%N) by (apply N.mod_lt; discriminate).
  assert (E1 : s1 = (55296 + n / 1024)%N).
  { unfold s1. rewrite Hq. change 55296%N with (N.shiftl 54 10).
    rewrite lor_shiftl_low by exact Hq'. reflexivity. }
  assert (E2 : s2 = (56320 + n mod 1024)%N).
  { unfold s2. rewrite Hr. change 56320%N with (N.shiftl 55 10).
    rewrite lor_shiftl_low by exact Hr'. reflexivity. }
  rewrite E1, E2. split; [lia|]. split; [lia|].
  replace (55296 + n / 1024 - 55296)%N with (n / 1024)%N by lia.
  replace (56320 + n mod 1024 - 56320)%N with (n mod 1024)%N by lia.
  rewrite lor_shiftl_low by exact Hr'.
  pose proof (N.div_mod n 1024). unfold n in *. lia.
Qed.

Lemma scalar_latin1 (s : string) : Forall scalar (latin1 s).
Proof.
  unfold latin1. apply Forall_forall. intros c Hc.
  apply in_map_iff in Hc. destruct Hc as [a [<- _]].
  pose proof (N_ascii_bounded a). unfold ch, scalar. lia.
Qed.

(** [scanstring] reads an escaped text back, up to the closing quote. *)
Lemma scanstring_escape (s rest : pystr) :
  Forall scalar s ->
  scanstring (escape s ++ 34%N :: rest) = Ok (s, rest).
Proof.
  induction 1 as [|c s [Hs Hc] _ IH].
  - cbn. reflexivity.
  - unfold escape in *. cbn [flat_map]. rewrite <- app_assoc.
    assert (Hgoal : forall pre,
              scanstring (pre ++ flat_map escape_cp s ++ 34%N :: rest)
              = cons_char c (scanstring (flat_map escape_cp s ++ 34%N :: rest))
              -> scanstring (pre ++ flat_map escape_cp s ++ 34%N :: rest)
                 = Ok (c :: s, rest)).
    { intros pre ->. now rewrite IH. }
    apply Hgoal. clear Hgoal IH.
    unfold escape_cp.
    destruct (N.eqb_spec c 92) as [->|H92];
      [now apply scanstring_backslash|].
    destruct (N.eqb_spec c 34) as [->|H34];
      [now apply scanstring_backslash|].
    destruct ((32 <=? c) && (c <=? 126))%N eqn:Hp; cbn [andb negb].
    { apply andb_true_iff in Hp. destruct Hp as [Hp _].
      apply N.leb_le in Hp. now apply scanstring_literal. }
    destruct (N.eqb_spec c 8) as [->|H8];
      [now apply scanstring_backslash|].
    destruct (N.eqb_spec c 12) as [->|H12];
      [now apply scanstring_backslash|].
    destruct (N.eqb_spec c 10) as [->|H10];
      [now apply scanstring_backslash|].
    destruct (N.eqb_spec c 13) as [->|H13];
      [now apply scanstring_backslash|].
    destruct (N.eqb_spec c 9) as [->|H9];
      [now apply scanstring_backslash|].
    destruct (N.ltb_spec c 65536) as [Hlt|Hge].
    + apply scanstring_u; lia.
    + destruct (surrogate_pair (conj Hge Hc)) as [H1 [H2 H3]].
      rewrite <- app_assoc. rewrite scanstring_pair by assumption.
      now rewrite H3.
Qed.

Lemma skip_ws_space (t : pystr) : skip_ws (32%N :: t) = skip_ws t.
Proof. reflexivity. Qed.

Lemma skip_ws_stop (c : N) (t : pystr) :
  is_ws c = false -> skip_ws (c :: t) = c :: t.
Proof. intros H. cbn [skip_ws]. now rewrite H. Qed.

Lemma scan_once_string (fuel : nat) (s rest : pystr) :
  Forall scalar s ->
  scan_once (S fuel) (34%N :: escape s ++ 34%N :: rest) = Ok (PStr s, rest).
Proof.
  intros Hs. cbn [scan_once]. change (34 =? 34)%N with true. cbv iota.
  now rewrite scanstring_escape.
Qed.

Lemma scan_once_404 (fuel : nat) (d : N) (rest : pystr) :
  scan_once (S fuel) (lit "404" ++ 44%N :: d :: rest)
  = Ok (PInt 404, 44%N :: d :: rest).
Proof. reflexivity. Qed.

Section Members.

Variable scan : pystr -> result (pyval * pystr).

(** One turn of the loop on the last member of an object. *)
Lemma object_loop_last (k : nat) (pairs : list (pystr * pyval))
      (key value_text rest : pystr) (v : pyval) :
  Forall scalar key ->
  skip_ws value_text = value_text ->
  scan value_text = Ok (v, 125%N :: rest) ->
  object_loop scan (S k) pairs
              (escape key ++ 34%N :: 58%N :: 32%N :: value_text)
  = Ok (PDict (dict_of_pairs (pairs ++ [(key, v)])), rest).
Proof.
  intros Hk Hw Hv. cbn [object_loop].
  rewrite (scanstring_escape _ Hk). cbn [bind fst snd].
  rewrite skip_ws_stop by reflexivity. change (58 =? 58)%N with true.
  cbv iota. rewrite skip_ws_space, Hw, Hv. cbn [bind fst snd].
  rewrite skip_ws_stop by reflexivity. reflexivity.
Qed.

(** One turn of the loop on a member that another one follows. *)
Lemma object_loop_next (k : nat) (pairs : list (pystr * pyval))
      (key value_text rest : pystr) (v : pyval) :
  Forall scalar key ->
  skip_ws value_text = value_text ->
  scan value_text = Ok (v, 44%N :: 32%N :: 34%N :: rest) ->
  object_loop scan (S k) pairs
              (escape key ++ 34%N :: 58%N :: 32%N :: value_text)
  = object_loop scan k (pairs ++ [(key, v)]) rest.
Proof.
  intros Hk Hw Hv. cbn [object_loop].
  rewrite (scanstring_escape _ Hk). cbn [bind fst snd].
  rewrite skip_ws_stop by reflexivity. change (58 =? 58)%N with true.
  cbv iota. rewrite skip_ws_space, Hw, Hv. cbn [bind fst snd].
  rewrite skip_ws_stop by reflexivity.
  change (44 =? 125)%N with false. change (44 =? 44)%N with true. cbv iota.
  rewrite skip_ws_space, skip_ws_stop by reflexivity. reflexivity.
Qed.

End Members.

Lemma scan_once_object (fuel : nat) (t : pystr) :
  scan_once (S fuel) (123%N :: t) = JSONObject (scan_once fuel) t.
Proof. reflexivity. Qed.

(** [loads] on an object: what is left is the loop over its members. *)
Lemma loads_object (t : pystr) (v : pyval) :
  object_loop (scan_once (S (S (List.length t)))) (S (List.length t)) [] t
  = Ok (v, []) ->
  loads (123%N :: 34%N :: t) = Ok v.
Proof.
  intros H. unfold loads.
  change (skip_ws (123%N :: 34%N :: t)) with (123%N :: 34%N :: t).
  change (List.length (123%N :: 34%N :: t)) with (S (S (List.length t))).
  rewrite scan_once_object. unfold JSONObject.
  change (skip_ws (34%N :: t)) with (34%N :: t).
  change (34 =? 125)%N with false. change (34 =? 34)%N with true. cbv iota.
  rewrite H. reflexivity.
Qed.

Lemma app_length_S {A} (a : list A) (x : A) (b : list A) :
  List.length (a ++ x :: b) = S (List.length (a ++ b)).
Proof. rewrite !length_app. cbn [List.length]. lia. Qed.

Lemma loads_ip_object (ip text : pystr) :
  Forall scalar ip ->
  dumps (ip_object ip) = Ok text -> loads text = Ok (ip_object ip).
Proof.
  intros Hs. rewrite dumps_ip_object. intros [= <-].
  unfold encode_basestring_ascii.
  change (loads (123%N :: 34%N
                 :: (escape (lit "ip")
                     ++ 34%N :: 58%N :: 32%N
                     :: (34%N :: escape ip ++ [34%N]) ++ [125%N]))
          = Ok (ip_object ip)).
  apply loads_object. rewrite app_length_S.
  apply (object_loop_last _ _ [] (key := lit "ip")).
  - apply (scalar_latin1 "ip").
  - reflexivity.
  - cbn [app]. rewrite <- app_assoc. now apply scan_once_string.
Qed.

Lemma loads_error_object (p text : pystr) :
  Forall scalar p ->
  dumps (error_object p) = Ok text -> loads text = Ok (error_object p).
Proof.
  intros Hs. rewrite dumps_error_object. intros [= <-].
  unfold encode_basestring_ascii.
  set (msg := lit "Recurso " ++ p ++ lit " no encontrado").
  assert (Hmsg : Forall scalar msg).
  { unfold msg. apply Forall_app. split; [apply (scalar_latin1 "Recurso ")|].
    apply Forall_app. split; [exact Hs|].
    apply (scalar_latin1 " no encontrado"). }
  change (loads (123%N :: 34%N
                 :: (escape (lit "code")
                     ++ 34%N :: 58%N :: 32%N
                     :: (lit "404"
                         ++ 44%N :: 32%N :: 34%N
                         :: (escape (lit "message")
                             ++ 34%N :: 58%N :: 32%N
                             :: (34%N :: escape msg ++ [34%N]) ++ [125%N]))))
          = Ok (error_object p)).
  apply loads_object. rewrite app_length_S.
  rewrite (object_loop_next _ _ [] (key := lit "code") (v := PInt 404)
             (rest := escape (lit "message")
                      ++ 34%N :: 58%N :: 32%N
                      :: (34%N :: escape msg ++ [34%N]) ++ [125%N])).
  - rewrite app_length_S.
    rewrite (object_loop_last _ _ _ (key := lit "message") (v := PStr msg)
               (rest := [])).
    + reflexivity.
    + apply (scalar_latin1 "message").
    + reflexivity.
    + cbn [app]. rewrite <- app_assoc. now apply scan_once_string.
  - apply (scalar_latin1 "code").
  - reflexivity.
  - apply scan_once_404.
Qed.

Lemma loads_not_found_object (text : pystr) :
  dumps not_found_object = Ok text -> loads text = Ok not_found_object.
Proof. intros [= <-]. vm_compute. reflexivity. Qed.

(** Outside Unicode text the round trip can fail: two surrogate halves
    written one after the other are read back as one code point. *)
Lemma surrogate_halves_merge :
  bind (dumps (PStr [55357; 56832]%N)) loads = Ok (PStr [128512%N]).
Proof. vm_compute. reflexivity. Qed.

(** What was serialized is what a client decodes. *)
Lemma encode_decode_json (obj : pyval) (text : pystr) :
  dumps obj = Ok text -> ascii_only text = true -> loads text = Ok obj ->
  exists body, encode_json obj = Ok body /\ decode_json body = Ok obj.
Proof.
  intros Hd Ha Hl. exists (map byte_of_N text). unfold encode_json, decode_json.
  rewrite Hd. cbn [bind]. rewrite (encode_ascii _ Ha), (decode_ascii _ Ha).
  split; [reflexivity | exact Hl].
Qed.

Lemma roundtrip_ip_object (ip : pystr) :
  Forall scalar ip ->
  exists body, encode_json (ip_object ip) = Ok body
               /\ decode_json body = Ok (ip_object ip).
Proof.
  intros Hs. destruct (dumps_ip_object_ascii ip) as [text [Hd Ha]].
  apply (encode_decode_json Hd Ha). now apply loads_ip_object.
Qed.

Lemma roundtrip_error_object (p : pystr) :
  Forall scalar p ->
  exists body, encode_json (error_object p) = Ok body
               /\ decode_json body = Ok (error_object p).
Proof.
  intros Hs. destruct (dumps_error_object_ascii p) as [text [Hd Ha]].
  apply (encode_decode_json Hd Ha). now apply loads_error_object.
Qed.

Lemma roundtrip_not_found_object :
  exists body, encode_json not_found_object = Ok body
               /\ decode_json body = Ok not_found_object.
Proof.
  eapply encode_decode_json;
    [reflexivity | vm_compute; reflexivity | vm_compute; reflexivity].
Qed.

(** ** The strings of a request stay text through the resolver *)

Lemma Forall_before_comma (P : N -> Prop) (s : pystr) :
  Forall P s -> Forall P (before_comma s).
Proof.
  induction 1 as [|c s Hc _ IH]; cbn [before_comma]; [constructor|].
  destruct (c =? ch ",")%N; now constructor.
Qed.

Lemma Forall_strip (P : N -> Prop) (s : pystr) :
  Forall P s -> Forall P (strip s).
Proof.
  intros H. destruct (strip_spec s) as [l [r [E _]]]. rewrite E in H.
  apply Forall_app in H. destruct H as [_ H].
  apply Forall_app in H. tauto.
Qed.

Lemma Forall_headers_get (P : pystr -> Prop) (hs : list (pystr * pystr))
      (name v : pystr) :
  Forall (fun kv => P (snd kv)) hs -> headers_get hs name = Some v -> P v.
Proof.
  induction 1 as [|[k x] hs Hx _ IH]; cbn [headers_get]; [discriminate|].
  destruct (str_eqb (lower k) (lower name)); [|exact IH].
  intros [= <-]. exact Hx.
Qed.

Lemma text_handler_of (r : request) : text_handler (handler_of r).
Proof.
  unfold text_handler, handler_of. cbn [path headers client_address fst].
  split; [apply scalar_latin1|]. split; [|apply scalar_latin1].
  apply Forall_forall. intros kv Hkv. apply in_map_iff in Hkv.
  destruct Hkv as [x [<- _]]. apply scalar_latin1.
Qed.

Lemma get_client_ip_text (self : handler) :
  text_handler self ->
  exists ip, Ej1a3._get_client_ip self = Ok ip /\ Forall scalar ip
             /\ (ip = [] <-> resolves_empty self = true).
Proof.
  intros [_ [Hh Hc]]. eexists. split; [apply get_client_ip_eq|].
  unfold resolves_empty.
  destruct (headers_get (headers self) (lit "X-Forwarded-For"))
    as [[|c v]|] eqn:Ex.
  - destruct (headers_get (headers self) (lit "X-Real-IP"))
      as [[|c' v']|] eqn:Er.
    + split; [exact Hc|]. destruct (fst (client_address self));
        split; congruence.
    + split; [exact (Forall_headers_get _ _ Hh Er)|]. split; discriminate.
    + split; [exact Hc|]. destruct (fst (client_address self));
        split; congruence.
  - split; [|apply strip_nil_iff].
    apply Forall_strip, Forall_before_comma.
    exact (Forall_headers_get _ _ Hh Ex).
  - destruct (headers_get (headers self) (lit "X-Real-IP"))
      as [[|c' v']|] eqn:Er.
    + split; [exact Hc|]. destruct (fst (client_address self));
        split; congruence.
    + split; [exact (Forall_headers_get _ _ Hh Er)|]. split; discriminate.
    + split; [exact Hc|]. destruct (fst (client_address self));
        split; congruence.
Qed.

(** Both dispatchers on a request whose strings are text: the body each
    writes is the encoding of the object it serialized, and decodes to
    that object. *)
Lemma bodies_roundtrip (self : handler) :
  text_handler self ->
  exists ip w1 w2,
    Ej1a3._get_client_ip self = Ok ip
    /\ response_of (Ej1a3.do_GET self) = Ok w1
    /\ encode_json (ej1a3_object self ip) = Ok (wfile w1)
    /\ decode_json (wfile w1) = Ok (ej1a3_object self ip)
    /\ response_of (Ej1b3.do_GET self) = Ok w2
    /\ encode_json (ej1b3_object self ip) = Ok (wfile w2)
    /\ decode_json (wfile w2) = Ok (ej1b3_object self ip).
Proof.
  intros Ht. destruct (get_client_ip_text Ht) as [ip [Hip [Hs _]]].
  unfold ej1a3_object, ej1b3_object.
  destruct (str_eqb (path self) (lit "/ip")) eqn:E.
  - apply str_eqb_eq in E.
    destruct (ip_route_total self E) as [ip' [body [Hip' [Hb [Hw Hw']]]]].
    assert (ip' = ip) by congruence. subst ip'.
    destruct (roundtrip_ip_object Hs) as [body' [Hb' Hd]].
    assert (body' = body) by congruence. subst body'.
    exists ip, (answer self 200 body), (answer self 200 body).
    rewrite Hw', answer_wfile. repeat split; assumption.
  - apply str_eqb_neq in E. destruct Ht as [Hp _].
    destruct (do_GET_1a3_not_found self E) as [b1 [Hb1 Hw1]].
    destruct roundtrip_not_found_object as [b1' [Hb1' Hd1]].
    assert (b1' = b1) by congruence. subst b1'.
    destruct (not_found_route_total self E) as [b2 [Hb2 Hw2]].
    destruct (roundtrip_error_object Hp) as [b2' [Hb2' Hd2]].
    assert (b2' = b2) by congruence. subst b2'.
    exists ip, (answer self 404 b1), (answer self 404 b2).
    rewrite !answer_wfile. repeat split; assumption.
Qed.

(** C6: for every request, the body [do_GET] writes (the "/ip" body,
    the 404 body of [ej1b3.py] and the 404 body of [ej1a3.py]) decodes
    to the very object that was serialized. *)
Theorem response_body_roundtrip (r : request) :
  exists ip w1 w2,
    Ej1a3._get_client_ip (handler_of r) = Ok ip
    /\ response_of (Ej1a3.do_GET (handler_of r)) = Ok w1
    /\ encode_json (ej1a3_object (handler_of r) ip) = Ok (wfile w1)
    /\ decode_json (wfile w1) = Ok (ej1a3_object (handler_of r) ip)
    /\ response_of (Ej1b3.do_GET (handler_of r)) = Ok w2
    /\ encode_json (ej1b3_object (handler_of r) ip) = Ok (wfile w2)
    /\ decode_json (wfile w2) = Ok (ej1b3_object (handler_of r) ip).
Proof. apply bodies_roundtrip, text_handler_of. Qed.




(* ================================================================== *)
(** * [get_stations_data] and the chain behind it                      *)
(* ================================================================== *)

Lemma get_stations_data_failed
  (requests_get : pystr -> result Ej1c2Feed.Response) :
  request_failed (requests_get gbfs_url) = true ->
  Ej1c2Feed.get_stations_data requests_get = Ok PNone.
Proof.
  unfold Ej1c2Feed.get_stations_data, Ej1a1.try_except_Exception,
    request_failed.
  fold gbfs_url.
  destruct (requests_get gbfs_url) as [r|e]; cbn [bind].
  - destruct (Ej1c2Feed.status_code r =? 200)%Z; [|reflexivity].
    destruct (Ej1c2Feed.json r) as [v|e]; cbn [bind].
    + destruct v; cbn; try reflexivity; discriminate.
    + now intros ->.
  - now intros ->.
Qed.

(** X1: [get_stations_data] returns the "data" entry of the document
    on status 200 ([None] if the object has none), and [None] for any
    other status, for a document that is not an object, and for every
    exception below [Exception] raised by the request or the parser;
    what it lets through is outside [Exception]. *)
Theorem get_stations_data_contract
  (requests_get : pystr -> result Ej1c2Feed.Response) :
  (forall r d, requests_get gbfs_url = Ok r ->
     Ej1c2Feed.status_code r = 200%Z -> Ej1c2Feed.json r = Ok (PDict d) ->
     Ej1c2Feed.get_stations_data requests_get = Ok (dict_get d (lit "data")))
  /\ (request_failed (requests_get gbfs_url) = true ->
      Ej1c2Feed.get_stations_data requests_get = Ok PNone)
  /\ (forall e, Ej1c2Feed.get_stations_data requests_get = Raise e ->
        is_Exception e = false).
Proof.
  unfold Ej1c2Feed.get_stations_data, Ej1a1.try_except_Exception.
  fold gbfs_url. repeat split.
  - intros r d -> Hs Hj. cbn [bind]. apply Z.eqb_eq in Hs.
    rewrite Hs, Hj. reflexivity.
  - fold (request_failed (requests_get gbfs_url)).
    apply get_stations_data_failed.
  - intros e. destruct (requests_get gbfs_url) as [r|e']; cbn [bind].
    + destruct (Ej1c2Feed.status_code r =? 200)%Z; [|discriminate].
      destruct (Ej1c2Feed.json r) as [v|e'']; cbn [bind].
      * destruct v; cbn; discriminate.
      * destruct (is_Exception e'') eqn:E; [discriminate|]. congruence.
    + destruct (is_Exception e') eqn:E; [discriminate|]. congruence.
Qed.

Lemma get_stations_data_contract_witness :
  Ej1c2Feed.get_stations_data
    (feed_answers 200 (Ok (PDict [(lit "data", two_stations)])))
  = Ok two_stations
  /\ Ej1c2Feed.get_stations_data
       (feed_answers 200 (Ok (PList [two_stations]))) = Ok PNone
  /\ Ej1c2Feed.get_stations_data
       (feed_answers 200 (Raise JSONDecodeError)) = Ok PNone.
Proof.
  split; [|split].
  - destruct (get_stations_data_contract
                (feed_answers 200 (Ok (PDict [(lit "data", two_stations)]))))
      as [H _].
    exact (H _ _ eq_refl eq_refl eq_refl).
  - destruct (get_stations_data_contract
                (feed_answers 200 (Ok (PList [two_stations]))))
      as [_ [H _]].
    exact (H eq_refl).
  - destruct (get_stations_data_contract
                (feed_answers 200 (Raise JSONDecodeError)))
      as [_ [H _]].
    exact (H eq_refl).
Defined.

Lemma get_station_coordinates_eq (station : pyval) :
  is_dict station = true \/ station = PNone ->
  Ej1c2.get_station_coordinates station = Ok (coordinates_of station).
Proof.
  intros [H| ->]; [|reflexivity].
  destruct station as [| | | | | | |d]; try discriminate.
  unfold Ej1c2.get_station_coordinates, Ej1c2.py_get, Ej1c2.py_get_default,
    coordinates_of, dict_get.
  cbn [Ej1c2.is_None bind].
  destruct (dict_get_default d (lit "lat") PNone);
    destruct (dict_get_default d (lit "lon") PNone); reflexivity.
Qed.

Lemma find_is_dict (f : pyval -> bool) (l : list pyval) :
  forallb is_dict l = true ->
  is_dict (or_None (find f l)) = true \/ or_None (find f l) = PNone.
Proof.
  intros H. destruct (find f l) as [st|] eqn:E; [|now right].
  left. apply find_some in E. rewrite forallb_forall in H.
  apply H. tauto.
Qed.

Lemma stations_of_dicts (stations_data : pyval) :
  feed_shaped stations_data = true ->
  forallb is_dict (stations_of stations_data) = true.
Proof.
  unfold feed_shaped, stations_of.
  destruct stations_data as [| | | | | | |d]; try reflexivity.
  destruct (dict_lookup d (lit "stations")) as [v|]; [|reflexivity].
  destruct v; try reflexivity. trivial.
Qed.

(** X2: when the request does not deliver a JSON object with status
    200, the failure travels by value: the station lookup, its
    coordinates and the table are all [None], and nothing raises. *)
Theorem failed_request_gives_None
  (requests_get : pystr -> result Ej1c2Feed.Response) (station_id : pystr) :
  request_failed (requests_get gbfs_url) = true ->
  bind (Ej1c2Feed.get_stations_data requests_get) (fun stations_data =>
  bind (Ej1c2.get_station_info stations_data station_id)
       Ej1c2.get_station_coordinates) = Ok PNone
  /\ bind (Ej1c2Feed.get_stations_data requests_get)
          Ej1c2.create_stations_dataframe = Ok None.
Proof.
  intros H. rewrite (get_stations_data_failed _ H). split; reflexivity.
Qed.

Lemma failed_request_gives_None_witness :
  bind (Ej1c2Feed.get_stations_data feed_unreachable) (fun stations_data =>
  bind (Ej1c2.get_station_info stations_data (lit "1"))
       Ej1c2.get_station_coordinates) = Ok PNone
  /\ bind (Ej1c2Feed.get_stations_data (feed_answers 503 (Raise JSONDecodeError)))
          Ej1c2.create_stations_dataframe = Ok None.
Proof.
  split.
  - apply (failed_request_gives_None feed_unreachable (lit "1") eq_refl).
  - apply (failed_request_gives_None
             (feed_answers 503 (Raise JSONDecodeError)) (lit "1") eq_refl).
Defined.

Lemma dict_get_not_None (d : dict) (k : pystr) (v : pyval) :
  dict_get d k = v -> v <> PNone -> dict_lookup d k = Some v.
Proof.
  unfold dict_get, dict_get_default.
  destruct (dict_lookup d k); congruence.
Qed.

Lemma coordinates_of_pair (station lat lon : pyval) :
  coordinates_of station = PTuple [lat; lon] ->
  exists d, station = PDict d
            /\ dict_lookup d (lit "lat") = Some lat
            /\ dict_lookup d (lit "lon") = Some lon
            /\ lat <> PNone /\ lon <> PNone.
Proof.
  destruct station as [| | | | | | |d]; try discriminate.
  unfold coordinates_of. intros H. exists d. split; [reflexivity|].
  destruct (dict_get d (lit "lat")) eqn:Ea;
    destruct (dict_get d (lit "lon")) eqn:Eo;
    try discriminate; injection H as <- <-;
    (split; [now apply dict_get_not_None|]);
    (split; [now apply dict_get_not_None|]); split; discriminate.
Qed.

Lemma station_chain_eq (stations_data : pyval) (station_id : pystr) :
  feed_shaped stations_data = true ->
  bind (Ej1c2.get_station_info stations_data station_id)
       Ej1c2.get_station_coordinates
  = Ok (coordinates_of
          (or_None (find (has_id station_id) (stations_of stations_data)))).
Proof.
  intros H. rewrite (get_station_info_eq _ station_id H). cbn [bind].
  apply get_station_coordinates_eq, find_is_dict. now apply stations_of_dicts.
Qed.

(** X3: on the feed's data, looking a station up and taking its
    coordinates never raises; a pair that comes back is made of the
    "lat" and "lon" of a record of the list with the id asked for, both
    not null; without such a record the result is [None]. *)
Theorem station_coordinates_chain (stations_data : pyval) (station_id : pystr) :
  feed_shaped stations_data = true ->
  (exists v,
     bind (Ej1c2.get_station_info stations_data station_id)
          Ej1c2.get_station_coordinates = Ok v)
  /\ (forall lat lon,
        bind (Ej1c2.get_station_info stations_data station_id)
             Ej1c2.get_station_coordinates = Ok (PTuple [lat; lon]) ->
        exists d, In (PDict d) (stations_of stations_data)
                  /\ has_id station_id (PDict d) = true
                  /\ dict_lookup d (lit "lat") = Some lat
                  /\ dict_lookup d (lit "lon") = Some lon
                  /\ lat <> PNone /\ lon <> PNone)
  /\ ((forall st, In st (stations_of stations_data) ->
                  has_id station_id st = false) ->
      bind (Ej1c2.get_station_info stations_data station_id)
           Ej1c2.get_station_coordinates = Ok PNone).
Proof.
  intros H. rewrite (station_chain_eq _ station_id H).
  split; [now eexists|]. split.
  - intros lat lon [= E].
    destruct (coordinates_of_pair _ E) as [d [Ed Hd]]. exists d.
    destruct (find (has_id station_id) (stations_of stations_data))
      as [st|] eqn:Ef; [|discriminate].
    cbn [or_None] in Ed. subst st. apply find_some in Ef. tauto.
  - intros Hno.
    destruct (find (has_id station_id) (stations_of stations_data))
      as [st|] eqn:Ef; [|reflexivity].
    apply find_some in Ef. destruct Ef as [Hin Hid].
    rewrite (Hno st Hin) in Hid. discriminate.
Qed.

Lemma station_coordinates_chain_witness :
  bind (Ej1c2.get_station_info two_stations (lit "1"))
       Ej1c2.get_station_coordinates = Ok (PTuple [PInt 41; PInt 2])
  /\ bind (Ej1c2.get_station_info two_stations (lit "9"))
          Ej1c2.get_station_coordinates = Ok PNone.
Proof.
  destruct (station_coordinates_chain two_stations (lit "9") eq_refl)
    as [_ [_ H]].
  split; [reflexivity|]. apply H.
  intros st [<-|[<-|[]]]; reflexivity.
Defined.

(* ================================================================== *)
(** * The station table                                                *)
(* ================================================================== *)

Lemma create_stations_dataframe_records (d : dict) (l : list pyval) :
  dict_lookup d (lit "stations") = Some (PList l) ->
  l <> [] -> forallb is_dict l = true ->
  Ej1c2.create_stations_dataframe (PDict d)
  = Ok (Some {| columns := station_columns; rows := map station_row l |}).
Proof.
  intros Hl Hne Hd.
  unfold Ej1c2.create_stations_dataframe, Ej1c2.py_get, Ej1c2.py_get_default,
    dict_get_default.
  cbn [Ej1c2.is_None bind]. rewrite Hl.
  cbn [Ej1c2.is_None Ej1c2.py_iter bind].
  rewrite (data_list_of_records _ Hd). cbn [bind].
  destruct l as [|st l]; [contradiction|].
  now rewrite (station_records_table _ _ Hd).
Qed.

(** X4: for a feed whose station list is not empty and holds records,
    the table has the columns station_id, latitude, longitude, name and
    one row per station, in list order; the cells of a row are made
    from the record's "station_id", "lat", "lon" and "name", from
    [None] for a key the record lacks (what pandas stores in a cell is
    the conversion of that object to the column's dtype). *)
Theorem create_stations_dataframe_rows (d : dict) (l : list pyval) :
  dict_lookup d (lit "stations") = Some (PList l) ->
  l <> [] -> forallb is_dict l = true ->
  exists df,
    Ej1c2.create_stations_dataframe (PDict d) = Ok (Some df)
    /\ columns df = [lit "station_id"; lit "latitude"; lit "longitude";
                     lit "name"]
    /\ List.length (rows df) = List.length l
    /\ (forall i r, nth_error l i = Some (PDict r) ->
          nth_error (rows df) i
          = Some [From (dict_get r (lit "station_id"));
                  From (dict_get r (lit "lat"));
                  From (dict_get r (lit "lon"));
                  From (dict_get r (lit "name"))]).
Proof.
  intros Hl Hne Hd. eexists.
  split; [exact (create_stations_dataframe_records _ Hl Hne Hd)|].
  cbn [columns rows]. split; [reflexivity|].
  split; [apply length_map|].
  intros i r Hi. rewrite nth_error_map, Hi. reflexivity.
Qed.

Lemma create_stations_dataframe_rows_witness :
  exists df,
    Ej1c2.create_stations_dataframe two_stations = Ok (Some df)
    /\ nth_error (rows df) 1
       = Some [From (PStr (lit "2")); From (PInt 42); From PNone;
               From (PStr (lit "Puerto"))].
Proof.
  destruct (@create_stations_dataframe_rows two_stations_dict [plaza; puerto]
              eq_refl ltac:(discriminate) eq_refl)
    as [df [Hdf [_ [_ Hrow]]]].
  exists df. split; [exact Hdf|].
  exact (Hrow 1%nat _ eq_refl).
Defined.

(** X5: the table and [get_station_coordinates] agree: when the
    coordinates of the [i]-th record of the list are a pair, the second
    and the third cell of the [i]-th row of the table are made from
    that latitude and that longitude. *)
Theorem table_agrees_with_coordinates
  (d : dict) (l : list pyval) (i : nat) (st lat lon : pyval) :
  dict_lookup d (lit "stations") = Some (PList l) ->
  forallb is_dict l = true ->
  nth_error l i = Some st ->
  Ej1c2.get_station_coordinates st = Ok (PTuple [lat; lon]) ->
  exists df sid name,
    Ej1c2.create_stations_dataframe (PDict d) = Ok (Some df)
    /\ nth_error (rows df) i = Some [sid; From lat; From lon; name].
Proof.
  intros Hl Hd Hi Hc.
  assert (Hne : l <> []) by (intros ->; destruct i; discriminate).
  assert (Hst : is_dict st = true).
  { rewrite forallb_forall in Hd. apply Hd. now apply nth_error_In in Hi. }
  rewrite (get_station_coordinates_eq (or_introl Hst)) in Hc.
  injection Hc as Hc. destruct (coordinates_of_pair _ Hc) as [r [-> [Ha [Ho _]]]].
  exists {| columns := station_columns; rows := map station_row l |}.
  exists (From (dict_get r (lit "station_id"))),
    (From (dict_get r (lit "name"))).
  split; [exact (create_stations_dataframe_records _ Hl Hne Hd)|].
  cbn [rows]. rewrite nth_error_map, Hi.
  cbn [option_map station_row station_values map].
  unfold dict_get at 2 3. unfold dict_get_default. now rewrite Ha, Ho.
Qed.

Lemma table_agrees_with_coordinates_witness :
  exists df sid name,
    Ej1c2.create_stations_dataframe two_stations = Ok (Some df)
    /\ nth_error (rows df) 0
       = Some [sid; From (PInt 41); From (PInt 2); name].
Proof.
  apply (@table_agrees_with_coordinates two_stations_dict [plaza; puerto]
           0%nat plaza (PInt 41) (PInt 2)); reflexivity.
Defined.

Lemma data_list_of_stray (l1 l2 : list pyval) (x : pyval) :
  forallb is_dict l1 = true -> is_dict x = false ->
  Ej1c2.data_list_of (l1 ++ x :: l2) = Raise AttributeError.
Proof.
  intros H1 Hx. induction l1 as [|st l1 IH]; cbn [app Ej1c2.data_list_of].
  - destruct x; try discriminate; reflexivity.
  - cbn [forallb] in H1. apply andb_true_iff in H1. destruct H1 as [Hs H1].
    destruct st as [| | | | | | |r]; try discriminate.
    cbn [Ej1c2.py_get Ej1c2.py_get_default bind]. now rewrite (IH H1).
Qed.

Lemma get_station_info_loop_stray
      (l1 l2 : list pyval) (x : pyval) (station_id : pystr) :
  forallb is_dict l1 = true -> is_dict x = false ->
  Ej1c2.get_station_info_loop (l1 ++ x :: l2) station_id
  = match find (has_id station_id) l1 with
    | Some st => Ok st
    | None => Raise AttributeError
    end.
Proof.
  intros H1 Hx.
  induction l1 as [|st l1 IH]; cbn [app Ej1c2.get_station_info_loop find].
  - destruct x; try discriminate; reflexivity.
  - cbn [forallb] in H1. apply andb_true_iff in H1. destruct H1 as [Hs H1].
    destruct st as [| | | | | | |r]; try discriminate.
    cbn [Ej1c2.py_get Ej1c2.py_get_default bind has_id].
    fold (dict_get r (lit "station_id")).
    destruct (Ej1c2.eq_str (dict_get r (lit "station_id")) station_id);
      [reflexivity|]. exact (IH H1).
Qed.

(** X6: a station list with an element that is not a record: the table
    builder raises [AttributeError] whatever the other elements are,
    while the lookup still returns the first matching record that
    stands before that element, and raises only when there is none. *)
Theorem stray_element_behaviour
  (d : dict) (l1 l2 : list pyval) (x : pyval) (station_id : pystr) :
  dict_lookup d (lit "stations") = Some (PList (l1 ++ x :: l2)) ->
  forallb is_dict l1 = true -> is_dict x = false ->
  Ej1c2.create_stations_dataframe (PDict d) = Raise AttributeError
  /\ Ej1c2.get_station_info (PDict d) station_id
     = match find (has_id station_id) l1 with
       | Some st => Ok st
       | None => Raise AttributeError
       end.
Proof.
  intros Hl H1 Hx. split.
  - unfold Ej1c2.create_stations_dataframe, Ej1c2.py_get,
      Ej1c2.py_get_default, dict_get_default.
    cbn [Ej1c2.is_None bind]. rewrite Hl.
    cbn [Ej1c2.is_None Ej1c2.py_iter bind].
    now rewrite (@data_list_of_stray l1 l2 x H1 Hx).
  - unfold Ej1c2.get_station_info, Ej1c2.py_get_default, dict_get_default.
    cbn [Ej1c2.is_None bind]. rewrite Hl.
    assert (Ht : truthy (PList (l1 ++ x :: l2)) = true)
      by (cbn [truthy]; destruct l1; reflexivity).
    rewrite Ht. cbn [negb Ej1c2.py_iter bind].
    now apply get_station_info_loop_stray.
Qed.

Lemma stray_element_behaviour_witness :
  Ej1c2.create_stations_dataframe (PDict stray_entry) = Raise AttributeError
  /\ Ej1c2.get_station_info (PDict stray_entry) (lit "1") = Ok plaza
  /\ Ej1c2.get_station_info (PDict stray_entry) (lit "2")
     = Raise AttributeError.
Proof.
  destruct (@stray_element_behaviour stray_entry [plaza] [puerto]
              (PStr (lit "2")) (lit "1") eq_refl eq_refl eq_refl) as [H1 H2].
  destruct (@stray_element_behaviour stray_entry [plaza] [puerto]
              (PStr (lit "2")) (lit "2") eq_refl eq_refl eq_refl) as [_ H3].
  split; [exact H1|]. split; [exact H2 | exact H3].
Defined.

(* ================================================================== *)
(** * More on the resolver and the responses                           *)
(* ================================================================== *)

Lemma lstrip_head (s t : pystr) (c : N) :
  lstrip s = c :: t -> isspace c = false.
Proof.
  induction s as [|a s IH]; cbn [lstrip]; [discriminate|].
  destruct (isspace a) eqn:E; [exact IH|]. intros [= <- _]. exact E.
Qed.

Lemma strip_head (s t : pystr) (c : N) :
  strip s = c :: t -> isspace c = false.
Proof.
  intros H. unfold strip, rstrip in H.
  destruct (lstrip_suffix (rev (lstrip s))) as [l [E _]].
  apply (f_equal (@rev N)) in E. rewrite rev_involutive, rev_app_distr in E.
  rewrite H in E. cbn [app] in E. exact (lstrip_head _ E).
Qed.

Lemma strip_last (s t : pystr) (c : N) :
  strip s = t ++ [c] -> isspace c = false.
Proof.
  intros H. unfold strip, rstrip in H.
  apply (f_equal (@rev N)) in H. rewrite rev_involutive, rev_app_distr in H.
  cbn [rev app] in H. exact (lstrip_head _ H).
Qed.

Lemma before_comma_prefix (s : pystr) :
  exists post, s = before_comma s ++ post.
Proof.
  induction s as [|c s [post IH]]; cbn [before_comma].
  - now exists [].
  - destruct (c =? ch ",")%N.
    + now exists (c :: s).
    + exists post. cbn [app]. now f_equal.
Qed.

Lemma before_comma_no_comma (s : pystr) : ~ In (ch ",") (before_comma s).
Proof.
  induction s as [|c s IH]; cbn [before_comma]; [tauto|].
  destruct (N.eqb_spec c (ch ",")) as [E|E]; [tauto|].
  intros [H|H]; [now apply E | now apply IH].
Qed.

(** X7: when X-Forwarded-For is present and not empty, the address the
    resolver returns is a piece of the header value that holds no comma
    and neither begins nor ends with white space. *)
Theorem forwarded_address_is_trimmed (self : handler) (v : pystr) :
  headers_get (headers self) (lit "X-Forwarded-For") = Some v -> v <> [] ->
  exists ip,
    Ej1a3._get_client_ip self = Ok ip
    /\ (exists pre post, v = pre ++ ip ++ post)
    /\ ~ In (ch ",") ip
    /\ (forall c t, ip = c :: t -> isspace c = false)
    /\ (forall t c, ip = t ++ [c] -> isspace c = false).
Proof.
  intros Hx Hv. exists (strip (before_comma v)). split.
  - rewrite get_client_ip_eq, Hx. destruct v; [contradiction|reflexivity].
  - destruct (strip_spec (before_comma v)) as [l [r [E _]]].
    destruct (before_comma_prefix v) as [post Ep].
    split; [|split; [|split]].
    + exists l, (r ++ post). rewrite Ep at 1. rewrite E at 1.
      now rewrite <- !app_assoc.
    + intros Hin. apply (before_comma_no_comma v). rewrite E.
      apply in_or_app. right. apply in_or_app. now left.
    + intros c t. apply strip_head.
    + intros t c. apply strip_last.
Qed.

Lemma forwarded_address_is_trimmed_witness :
  exists ip,
    Ej1a3._get_client_ip behind_proxy = Ok ip
    /\ ~ In (ch ",") ip
    /\ (forall c t, ip = c :: t -> isspace c = false).
Proof.
  destruct (@forwarded_address_is_trimmed behind_proxy
              (lit "1.2.3.4, 5.6.7.8") eq_refl ltac:(discriminate))
    as [ip [H1 [_ [H2 [H3 _]]]]].
  exists ip. split; [exact H1|]. split; [exact H2 | exact H3].
Defined.





Lemma printable_app (a b : pystr) :
  printable (a ++ b) = printable a && printable b.
Proof. apply forallb_app. Qed.

Lemma hexdigit_printable (d : N) :
  (d < 16)%N -> ((32 <=? hexdigit d) && (hexdigit d <=? 126))%N = true.
Proof.
  intros H. unfold hexdigit. apply andb_true_iff.
  destruct (d <? 10)%N; split; apply N.leb_le; lia.
Qed.

Lemma u_escape_printable (n : N) : printable (u_escape n) = true.
Proof.
  unfold u_escape, hex4, printable. cbn [forallb ch N_of_ascii].
  rewrite !hexdigit_printable by (apply N.mod_lt; discriminate).
  reflexivity.
Qed.

Lemma escape_cp_printable (c : N) : printable (escape_cp c) = true.
Proof.
  unfold escape_cp.
  destruct ((32 <=? c) && (c <=? 126) && negb (c =? 92) && negb (c =? 34))%N
    eqn:E.
  - cbn [printable forallb]. rewrite andb_true_r.
    rewrite !andb_true_iff in E. rewrite !andb_true_iff. tauto.
  - repeat match goal with
           | |- context [if ?b then _ else _] => destruct b
           end; try reflexivity; try apply u_escape_printable.
    rewrite printable_app, !u_escape_printable. reflexivity.
Qed.

Lemma escape_printable (s : pystr) : printable (escape s) = true.
Proof.
  induction s as [|c t IH]; [reflexivity|].
  unfold escape in *. cbn [flat_map].
  now rewrite printable_app, escape_cp_printable, IH.
Qed.

Lemma encode_basestring_ascii_printable (s : pystr) :
  printable (encode_basestring_ascii s) = true.
Proof.
  unfold encode_basestring_ascii.
  change (34%N :: escape s ++ [34%N]) with ([34%N] ++ escape s ++ [34%N]).
  now rewrite !printable_app, escape_printable.
Qed.

Lemma printable_ascii_only (s : pystr) :
  printable s = true -> ascii_only s = true.
Proof.
  unfold printable, ascii_only. rewrite !forallb_forall.
  intros H c Hc. specialize (H c Hc). apply andb_true_iff in H.
  destruct H as [_ H]. apply N.leb_le in H. apply N.ltb_lt. lia.
Qed.

Lemma encode_json_printable (obj : pyval) (text : pystr)
      (body : list Byte.byte) :
  dumps obj = Ok text -> printable text = true ->
  encode_json obj = Ok body ->
  Forall (fun b => (32 <= Byte.to_N b <= 126)%N) body.
Proof.
  intros Hd Hp. unfold encode_json. rewrite Hd. cbn [bind].
  rewrite (encode_ascii _ (printable_ascii_only _ Hp)). intros [= <-].
  apply Forall_forall. intros b Hb. apply in_map_iff in Hb.
  destruct Hb as [c [<- Hc]].
  unfold printable in Hp. rewrite forallb_forall in Hp.
  specialize (Hp c Hc). apply andb_true_iff in Hp. destruct Hp as [H1 H2].
  apply N.leb_le in H1, H2. rewrite to_N_byte_of_N by lia. lia.
Qed.

(** X9: whatever the request holds, every octet of a response body is
    printable ASCII (0x20 to 0x7E): no control character, no line break
    and no octet above 0x7F reaches the body, a path is echoed with
    escapes where needed. *)
Theorem response_body_is_printable (self : handler) (w : wire) :
  response_of (Ej1a3.do_GET self) = Ok w
  \/ response_of (Ej1b3.do_GET self) = Ok w ->
  Forall (fun b => (32 <= Byte.to_N b <= 126)%N) (wfile w).
Proof.
  assert (Hip : forall ip body, encode_json (ip_object ip) = Ok body ->
            Forall (fun b => (32 <= Byte.to_N b <= 126)%N) body).
  { intros ip body Hb.
    eapply encode_json_printable; [apply dumps_ip_object | | exact Hb].
    now rewrite !printable_app, !encode_basestring_ascii_printable. }
  assert (Her : forall p body, encode_json (error_object p) = Ok body ->
            Forall (fun b => (32 <= Byte.to_N b <= 126)%N) body).
  { intros p body Hb.
    eapply encode_json_printable; [apply dumps_error_object | | exact Hb].
    now rewrite !printable_app, !encode_basestring_ascii_printable. }
  assert (Hnf : forall body, encode_json not_found_object = Ok body ->
            Forall (fun b => (32 <= Byte.to_N b <= 126)%N) body).
  { intros body Hb.
    eapply (@encode_json_printable not_found_object);
      [reflexivity | vm_compute; reflexivity | exact Hb]. }
  destruct (str_eqb (path self) (lit "/ip")) eqn:E.
  - apply str_eqb_eq in E.
    destruct (ip_route_total self E) as [ip [body [_ [Hb [Hw Hw']]]]].
    rewrite Hw', Hw.
    intros [[= <-]|[= <-]]; rewrite answer_wfile; exact (Hip _ _ Hb).
  - apply str_eqb_neq in E.
    destruct (do_GET_1a3_not_found self E) as [b1 [Hb1 Hw1]].
    destruct (not_found_route_total self E) as [b2 [Hb2 Hw2]].
    rewrite Hw1, Hw2.
    intros [[= <-]|[= <-]]; rewrite answer_wfile;
      [exact (Hnf _ Hb1) | exact (Her _ _ Hb2)].
Qed.

Lemma response_body_is_printable_witness :
  exists w,
    response_of (Ej1b3.do_GET with_query) = Ok w
    /\ Forall (fun b => (32 <= Byte.to_N b <= 126)%N) (wfile w).
Proof.
  eexists. split; [reflexivity|].
  apply (@response_body_is_printable with_query). right. reflexivity.
Defined.

(** X10: the 404 body of [ej1b3.py] tells the path: two requests for
    different paths, neither of them "/ip", never get the same body. *)
Theorem not_found_body_determines_path (r1 r2 : request) (w1 w2 : wire) :
  path (handler_of r1) <> lit "/ip" -> path (handler_of r2) <> lit "/ip" ->
  path (handler_of r1) <> path (handler_of r2) ->
  response_of (Ej1b3.do_GET (handler_of r1)) = Ok w1 ->
  response_of (Ej1b3.do_GET (handler_of r2)) = Ok w2 ->
  wfile w1 <> wfile w2.
Proof.
  intros H1 H2 Hne Hw1 Hw2 Hb.
  destruct (not_found_route_total _ H1) as [b1 [Hb1 Hr1]].
  destruct (not_found_route_total _ H2) as [b2 [Hb2 Hr2]].
  rewrite Hr1 in Hw1. rewrite Hr2 in Hw2.
  injection Hw1 as <-. injection Hw2 as <-. rewrite !answer_wfile in Hb.
  subst b2.
  destruct (text_handler_of r1) as [T1 _].
  destruct (text_handler_of r2) as [T2 _].
  destruct (roundtrip_error_object T1) as [b1' [Hb1' Hd1]].
  destruct (roundtrip_error_object T2) as [b2' [Hb2' Hd2]].
  assert (b1' = b1) by congruence. assert (b2' = b1) by congruence.
  subst b1' b2'. rewrite Hd1 in Hd2. injection Hd2 as Hd2.
  apply app_inv_tail in Hd2. exact (Hne Hd2).
Qed.

Lemma not_found_body_determines_path_witness :
  exists w1 w2,
    response_of (Ej1b3.do_GET (handler_of unknown_request)) = Ok w1
    /\ response_of (Ej1b3.do_GET (handler_of users_request)) = Ok w2
    /\ wfile w1 <> wfile w2.
Proof.
  do 2 eexists. split; [reflexivity|]. split; [reflexivity|].
  apply (@not_found_body_determines_path unknown_request users_request);
    try reflexivity; discriminate.
Defined.

(* ================================================================== *)
(** * The system catalogue of [pybikes]                                *)
(* ================================================================== *)

Section Catalogue.

Variable str_lower : pystr -> pystr.

Lemma buscar_loop_well_formed (needle : pystr)
      (items : list (pystr * pyval)) (acc : list pystr) :
  forallb well_formed_info (map snd items) = true ->
  Ej1d1Systems.buscar_loop str_lower needle items acc
  = Ok (acc ++ map fst (filter (fun kv => mentions str_lower needle (snd kv))
                               items)).
Proof.
  revert acc. induction items as [|[tag info] items IH]; intros acc H.
  - cbn. now rewrite app_nil_r.
  - cbn [map snd forallb] in H. apply andb_true_iff in H.
    destruct H as [Hi H]. destruct info as [| | | | | | |d]; try discriminate.
    cbn [well_formed_info] in Hi. apply andb_true_iff in Hi.
    destruct Hi as [Hc Hn].
    cbn [Ej1d1Systems.buscar_loop Ej1c2.py_get_default bind filter snd
         mentions].
    destruct (dict_get_default d (lit "city") (PStr [])) as [| | | |c| | |];
      try discriminate.
    destruct (dict_get_default d (lit "name") (PStr [])) as [| | | |n| | |];
      try discriminate.
    cbn [Ej1d1Systems.py_lower bind str_of].
    destruct (str_contains (str_lower c) needle
              || str_contains (str_lower n) needle).
    + rewrite (IH _ H). cbn [map fst]. now rewrite <- app_assoc.
    + exact (IH _ H).
Qed.

Lemma buscar_loop_malformed (needle : pystr)
      (items : list (pystr * pyval)) (acc : list pystr) :
  forallb well_formed_info (map snd items) = false ->
  Ej1d1Systems.buscar_loop str_lower needle items acc = Raise AttributeError.
Proof.
  revert acc. induction items as [|[tag info] items IH]; intros acc H.
  - discriminate.
  - cbn [map snd forallb] in H.
    cbn [Ej1d1Systems.buscar_loop].
    destruct info as [| | | | | | |d]; try reflexivity.
    cbn [well_formed_info] in H.
    cbn [Ej1c2.py_get_default bind].
    destruct (dict_get_default d (lit "city") (PStr [])) as [| | | |c| | |];
      try reflexivity.
    destruct (dict_get_default d (lit "name") (PStr [])) as [| | | |n| | |];
      try reflexivity.
    cbn [is_str andb] in H. cbn [Ej1d1Systems.py_lower bind].
    destruct (str_contains (str_lower c) needle
              || str_contains (str_lower n) needle); now apply IH.
Qed.

(** The search on a catalogue that is a [dict]. *)
Lemma buscar_dict (d : dict) (ciudad : pystr) :
  Ej1d1Systems.buscar_sistema_por_ciudad str_lower (Ok (PDict d)) ciudad
  = Ok (if forallb well_formed_info (map snd d)
        then map fst (filter (fun kv => mentions str_lower (str_lower ciudad)
                                                 (snd kv)) d)
        else []).
Proof.
  unfold Ej1d1Systems.buscar_sistema_por_ciudad, Ej1a1.try_except_Exception.
  cbn [bind py_items].
  destruct (forallb well_formed_info (map snd d)) eqn:E.
  - now rewrite (buscar_loop_well_formed _ _ [] E).
  - now rewrite (buscar_loop_malformed _ _ [] E).
Qed.

Lemma filter_incl_map {A B} (f : A -> B) (keep : A -> bool) (l : list A) :
  incl (map f (filter keep l)) (map f l).
Proof.
  intros x Hx. apply in_map_iff in Hx. destruct Hx as [a [<- Ha]].
  apply filter_In in Ha. apply in_map. tauto.
Qed.

(** X11: whatever [pybikes.get_all_data] does, the tags a search
    returns are tags of the listing, in the order of the listing: the
    listing with some entries left out. *)
Theorem buscar_within_listar
  (get_all_data : result pyval) (ciudad : pystr) (ks rs : list pystr) :
  Ej1d1Systems.listar_sistemas_disponibles get_all_data = Ok ks ->
  Ej1d1Systems.buscar_sistema_por_ciudad str_lower get_all_data ciudad
  = Ok rs ->
  (exists (items : list (pystr * pyval)) keep,
      ks = map fst items /\ rs = map fst (filter keep items))
  /\ incl rs ks.
Proof.
  intros Hl Hb.
  assert (H : exists (items : list (pystr * pyval)) keep,
             ks = map fst items /\ rs = map fst (filter keep items)).
  { destruct get_all_data as [v|e].
    - destruct v as [| | | | | | |d];
        try (injection Hl as <-; injection Hb as <-;
             exists [], (fun _ => true); split; reflexivity).
      rewrite buscar_dict in Hb. injection Hl as <-. injection Hb as <-.
      exists d. destruct (forallb well_formed_info (map snd d)).
      + eexists. split; reflexivity.
      + exists (fun _ => false). split; [reflexivity|].
        induction d as [|kv d IH]; [reflexivity | exact IH].
    - unfold Ej1d1Systems.listar_sistemas_disponibles,
        Ej1d1Systems.buscar_sistema_por_ciudad,
        Ej1a1.try_except_Exception in Hl, Hb.
      cbn [bind] in Hl, Hb. destruct (is_Exception e); [|discriminate].
      injection Hl as <-. injection Hb as <-.
      exists [], (fun _ => true). split; reflexivity. }
  split; [exact H|]. destruct H as [items [keep [-> ->]]].
  apply filter_incl_map.
Qed.

Lemma str_contains_nil (s : pystr) : str_contains s [] = true.
Proof. destruct s; reflexivity. Qed.

Lemma filter_mentions_nil (d : dict) :
  forallb well_formed_info (map snd d) = true ->
  filter (fun kv => mentions str_lower [] (snd kv)) d = d.
Proof.
  induction d as [|[tag info] d IH]; [reflexivity|].
  cbn [map snd forallb filter]. intros H. apply andb_true_iff in H.
  destruct H as [Hi H]. destruct info as [| | | | | | |r]; try discriminate.
  cbn [mentions]. rewrite str_contains_nil. cbn [orb]. now rewrite (IH H).
Qed.

(** X12: on a well-formed catalogue a search for the empty string
    returns every tag: the listing itself. [str.lower] maps the empty
    string to itself. *)
Theorem buscar_empty_string (d : dict) :
  str_lower [] = [] ->
  forallb well_formed_info (map snd d) = true ->
  Ej1d1Systems.buscar_sistema_por_ciudad str_lower (Ok (PDict d)) []
  = Ej1d1Systems.listar_sistemas_disponibles (Ok (PDict d)).
Proof.
  intros H0 Hw. rewrite buscar_dict, Hw, H0, (filter_mentions_nil _ Hw).
  reflexivity.
Qed.

(** X13: one system whose metadata is not well formed (not a [dict],
    or with a "city" or "name" that is not a string, a null for
    instance) empties the search: the result is [[]] for every city,
    also when other systems match. *)
Theorem buscar_malformed_entry (d : dict) (ciudad : pystr) :
  forallb well_formed_info (map snd d) = false ->
  Ej1d1Systems.buscar_sistema_por_ciudad str_lower (Ok (PDict d)) ciudad
  = Ok [].
Proof. intros H. now rewrite buscar_dict, H. Qed.

End Catalogue.

Lemma buscar_within_listar_witness :
  incl [lit "bicing"] [lit "bicing"; lit "bizi"].
Proof.
  apply (@buscar_within_listar lower (Ok (PDict two_systems))
           (lit "BARCELONA")); reflexivity.
Defined.

Lemma buscar_empty_string_witness :
  Ej1d1Systems.buscar_sistema_por_ciudad lower (Ok (PDict two_systems)) []
  = Ok [lit "bicing"; lit "bizi"].
Proof.
  exact (@buscar_empty_string lower two_systems eq_refl eq_refl).
Defined.

Lemma buscar_malformed_entry_witness :
  Ej1d1Systems.buscar_sistema_por_ciudad lower (Ok (PDict null_city))
    (lit "Barcelona") = Ok [].
Proof.
  exact (@buscar_malformed_entry lower null_city (lit "Barcelona") eq_refl).
Defined.

(** X14: on a well-formed catalogue a tag is returned exactly when an
    entry with that tag holds the lowered query in its lowered city or
    in its lowered name (a missing city or name counts as empty). *)
Theorem buscar_sound_and_complete
  (str_lower : pystr -> pystr) (d : dict) (ciudad tag : pystr) :
  forallb well_formed_info (map snd d) = true ->
  exists rs,
    Ej1d1Systems.buscar_sistema_por_ciudad str_lower (Ok (PDict d)) ciudad
    = Ok rs
    /\ (In tag rs <->
        exists info, In (tag, info) d
                     /\ mentions str_lower (str_lower ciudad) info = true).
Proof.
  intros Hw. eexists. split; [rewrite buscar_dict, Hw; reflexivity|].
  rewrite in_map_iff. split.
  - intros [[t info] [Ht Hin]]. cbn [fst] in Ht. subst t.
    apply filter_In in Hin. exists info. exact Hin.
  - intros [info [Hin Hm]]. exists (tag, info).
    split; [reflexivity|]. apply filter_In. split; assumption.
Qed.

Lemma buscar_sound_and_complete_witness :
  exists rs,
    Ej1d1Systems.buscar_sistema_por_ciudad lower (Ok (PDict two_systems))
      (lit "ZARA") = Ok rs
    /\ In (lit "bizi") rs.
Proof.
  destruct (@buscar_sound_and_complete lower two_systems (lit "ZARA")
              (lit "bizi") eq_refl) as [rs [H1 H2]].
  exists rs. split; [exact H1|]. apply H2. exists bizi_info.
  split; [right; left; reflexivity | reflexivity].
Defined.

Lemma dict_lookup_In (d : dict) (k : pystr) (v : pyval) :
  dict_lookup d k = Some v -> In (k, v) d.
Proof.
  induction d as [|[k' v'] d IH]; cbn [dict_lookup]; [discriminate|].
  destruct (str_eqb k' k) eqn:E.
  - apply str_eqb_eq in E. intros [= <-]. left. now subst.
  - intros H. right. now apply IH.
Qed.

Lemma dict_lookup_None (d : dict) (k : pystr) :
  dict_lookup d k = None <-> ~ In k (map fst d).
Proof.
  induction d as [|[k' v'] d IH]; cbn [dict_lookup map fst In]; [tauto|].
  destruct (str_eqb k' k) eqn:E.
  - apply str_eqb_eq in E. split; [discriminate | tauto].
  - apply str_eqb_neq in E. rewrite IH. tauto.
Qed.

(** X15: on a catalogue that is a [dict], [obtener_info_sistema]
    returns the metadata of every tag that [listar_sistemas_disponibles]
    lists, and [None] for every other tag. *)
Theorem obtener_info_of_listed (d : dict) (tag : pystr) :
  Ej1d1Systems.listar_sistemas_disponibles (Ok (PDict d)) = Ok (map fst d)
  /\ (In tag (map fst d) ->
      exists info, In (tag, info) d
                   /\ Ej1d1Systems.obtener_info_sistema (Ok (PDict d)) tag
                      = Ok info)
  /\ (~ In tag (map fst d) ->
      Ej1d1Systems.obtener_info_sistema (Ok (PDict d)) tag = Ok PNone).
Proof.
  split; [reflexivity|].
  unfold Ej1d1Systems.obtener_info_sistema, Ej1a1.try_except_Exception.
  cbn [bind py_in py_getitem]. split.
  - intros Hin. destruct (dict_lookup d tag) as [info|] eqn:E.
    + exists info. split; [now apply dict_lookup_In | reflexivity].
    + apply dict_lookup_None in E. contradiction.
  - intros Hno. apply dict_lookup_None in Hno. now rewrite Hno.
Qed.

Lemma obtener_info_of_listed_witness :
  (exists info, In (lit "bizi", info) two_systems
                /\ Ej1d1Systems.obtener_info_sistema (Ok (PDict two_systems))
                     (lit "bizi") = Ok info)
  /\ Ej1d1Systems.obtener_info_sistema (Ok (PDict two_systems)) (lit "velib")
     = Ok PNone.
Proof.
  destruct (obtener_info_of_listed two_systems (lit "bizi")) as [_ [H _]].
  destruct (obtener_info_of_listed two_systems (lit "velib")) as [_ [_ H']].
  split.
  - apply H. right. left. reflexivity.
  - apply H'. intros [E|[E|[]]]; discriminate.
Defined.

(** X16: when [pybikes.get_all_data] raises an exception below
    [Exception], or returns something that is not a [dict], the three
    catalogue functions degrade to their empty answers: no tag listed,
    no tag found, no metadata. *)
Theorem catalogue_degrades
  (str_lower : pystr -> pystr) (get_all_data : result pyval)
  (ciudad tag : pystr) :
  match get_all_data with
  | Ok v => is_dict v = false
  | Raise e => is_Exception e = true
  end ->
  Ej1d1Systems.listar_sistemas_disponibles get_all_data = Ok []
  /\ Ej1d1Systems.buscar_sistema_por_ciudad str_lower get_all_data ciudad
     = Ok []
  /\ Ej1d1Systems.obtener_info_sistema get_all_data tag = Ok PNone.
Proof.
  unfold Ej1d1Systems.listar_sistemas_disponibles,
    Ej1d1Systems.buscar_sistema_por_ciudad,
    Ej1d1Systems.obtener_info_sistema, Ej1a1.try_except_Exception.
  destruct get_all_data as [v|e]; cbn [bind].
  - destruct v as [|b|z|f|s|l|l|d]; try discriminate; intros _;
      cbn [py_keys py_items py_in py_getitem bind is_Exception];
      repeat split;
      match goal with
      | |- context [if ?b then _ else _] => destruct b; reflexivity
      | _ => reflexivity
      end.
  - intros ->. repeat split.
Qed.

Lemma catalogue_degrades_witness :
  Ej1d1Systems.listar_sistemas_disponibles
    (Ok (PList [PStr (lit "bicing")])) = Ok []
  /\ Ej1d1Systems.obtener_info_sistema
       (Ok (PList [PStr (lit "bicing")])) (lit "bicing") = Ok PNone.
Proof.
  destruct (@catalogue_degrades lower (Ok (PList [PStr (lit "bicing")]))
              (lit "x") (lit "bicing") eq_refl) as [H1 [_ H3]].
  split; [exact H1 | exact H3].
Defined.

(** X17: [obtener_estaciones] returns the refreshed station list, and
    [None] when the lookup of the tag or the refresh raises an
    exception below [Exception]; either way the table made from its
    result has the five columns, with one row per refreshed station,
    its cells made from the station's attributes, and no row after a
    failure. *)
Theorem obtener_estaciones_table
  (pybikes_get : pystr -> result Ej1d1Systems.BikeShareSystem)
  (tag : pystr) :
  (forall sistema l,
     pybikes_get tag = Ok sistema -> Ej1d1Systems.refreshed sistema = Ok l ->
     Ej1d1Systems.obtener_estaciones pybikes_get tag = Ok (Some l)
     /\ Ej1d1.crear_dataframe_estaciones (Some l)
        = {| columns := estacion_columns; rows := map estacion_row l |})
  /\ (match pybikes_get tag with
      | Ok sistema =>
          match Ej1d1Systems.refreshed sistema with
          | Ok _ => False
          | Raise e => is_Exception e = true
          end
      | Raise e => is_Exception e = true
      end ->
      Ej1d1Systems.obtener_estaciones pybikes_get tag = Ok None
      /\ Ej1d1.crear_dataframe_estaciones None
         = {| columns := estacion_columns; rows := [] |}).
Proof.
  unfold Ej1d1Systems.obtener_estaciones, Ej1a1.try_except_Exception. split.
  - intros sistema l -> Hr. cbn [bind]. rewrite Hr. split; [reflexivity|].
    destruct l as [|e l]; [reflexivity|]. apply estacion_records_table.
  - destruct (pybikes_get tag) as [sistema|e]; cbn [bind].
    + destruct (Ej1d1Systems.refreshed sistema) as [l|e]; [contradiction|].
      cbn [bind]. intros ->. split; reflexivity.
    + intros ->. split; reflexivity.
Qed.

Lemma obtener_estaciones_table_witness :
  Ej1d1Systems.obtener_estaciones only_bicing (lit "bicing")
  = Ok (Some [una_estacion])
  /\ Ej1d1Systems.obtener_estaciones only_bicing (lit "velib") = Ok None.
Proof.
  destruct (obtener_estaciones_table only_bicing (lit "bicing")) as [H _].
  destruct (obtener_estaciones_table only_bicing (lit "velib")) as [_ H'].
  split.
  - apply (H {| Ej1d1Systems.refreshed := Ok [una_estacion] |});
      reflexivity.
  - apply H'. reflexivity.
Defined.

(* ================================================================== *)
(** * The script of [ej1a1.py]                                         *)
(* ================================================================== *)

(** X18: the script prints one line; it is the failure line exactly
    when [get_user_ip] returned [None] or the empty string, so a 200
    answer with an empty body is reported as a failure; otherwise the
    line ends with the address. *)
Theorem main_reports (requests_get : pystr -> result Ej1a1.Response)
        (line : pystr) :
  Ej1a1Main.main requests_get = Ok line ->
  (line = no_ip_line <->
   Ej1a1.get_user_ip requests_get = Ok None
   \/ Ej1a1.get_user_ip requests_get = Ok (Some []))
  /\ (forall ip, Ej1a1.get_user_ip requests_get = Ok (Some ip) -> ip <> [] ->
        line = ip_line ip).
Proof.
  unfold Ej1a1Main.main.
  destruct (Ej1a1.get_user_ip requests_get) as [[[|c ip]|]|e]; cbn [bind];
    try discriminate; intros [= <-]; split.
  - split; [tauto | reflexivity].
  - intros ip [= <-]. contradiction.
  - split; [discriminate | intros [H|H]; discriminate].
  - intros ip' [= <-] _. reflexivity.
  - split; [tauto | reflexivity].
  - intros ip [=].
Qed.

Lemma main_reports_witness :
  Ej1a1Main.main (answers 200 []) = Ok no_ip_line
  /\ exists line,
       Ej1a1Main.main (answers 200 (lit "203.0.113.7")) = Ok line
       /\ line = ip_line (lit "203.0.113.7").
Proof.
  split; [reflexivity|]. eexists. split; [reflexivity|].
  apply (@main_reports (answers 200 (lit "203.0.113.7")) _ eq_refl);
    [reflexivity | discriminate].
Defined.
